(** * pg_activity: core of the snapshot-diff engine, the view-state handlers
      and the rendering helpers, as a shallow embedding of the Python source.

    Floats are modelled by exact rationals [Q]; Python exceptions by the
    [result] type below. *)

From Stdlib Require Import ZArith QArith Qround Qabs List String Ascii Bool Lia Lqa.
From Stdlib Require Import Sorted Permutation.
Import ListNotations.
Open Scope string_scope.

(** ** Python values and exceptions *)

Inductive pyval : Type :=
| PNone
| PStr (s : string)
| PInt (z : Z).

Inductive exn : Type :=
| ValueError (arg : pyval)
| ZeroDivisionError.

Inductive result (A : Type) : Type :=
| Ok (a : A)
| Raise (e : exn).
Arguments Ok {A} a.
Arguments Raise {A} e.

Definition bind {A B} (r : result A) (f : A -> result B) : result B :=
  match r with Ok a => f a | Raise e => Raise e end.

Notation "x <- r ;; k" := (bind r (fun x => k))
  (at level 61, r at next level, right associativity).

(** Python's [int(x)] on a float truncates toward zero. *)
Definition py_int (q : Q) : Z :=
  if Qle_bool 0 q then Qfloor q else - Qfloor (- q).

Definition Qlt_bool (a b : Q) : bool := negb (Qle_bool b a).

(** Python's builtin [max(a, b)] / [min(a, b)]: the first argument is kept
    unless the second is strictly greater / smaller. *)
Definition py_max (a b : Q) : Q := if Qlt_bool a b then b else a.
Definition py_min (a b : Q) : Q := if Qlt_bool b a then b else a.

(** Optional string equality, as [key == "+"] with [key : Optional[str]]. *)
Definition key_is (key : option string) (s : string) : bool :=
  match key with Some k => String.eqb k s | None => false end.

(** ** keys.py *)

Module Keys.
Definition EXIT := "q".
Definition HELP := "h".
Definition REFRESH_TIME_INCREASE := "+".
Definition REFRESH_TIME_DECREASE := "-".

(** Modelled from the spec: [keys.SORTBY_*], [keys.PAUSE],
    [keys.CHANGE_DURATION_MODE] and [keys.CHANGE_DISPLAY_MODE] are used by
    handlers.py and ui.py but are not defined in keys.py; the letters are
    those of the doctests of handlers.py and of [keys.BINDINGS]. *)
Definition SORTBY_CPU := "c".
Definition SORTBY_MEM := "m".
Definition SORTBY_READ := "r".
Definition SORTBY_TIME := "t".
Definition SORTBY_WRITE := "w".
Definition PAUSE := " ".
Definition CHANGE_DURATION_MODE := "T".
Definition CHANGE_DISPLAY_MODE := "v".

(** [curses.KEY_F1 .. KEY_F3]. *)
Definition KEY_F1 : Z := 265%Z.
Definition KEY_F2 : Z := 266%Z.
Definition KEY_F3 : Z := 267%Z.
End Keys.

(** A blessed [Keystroke]: a [str] with an optional curses key code
    ([is_sequence] holds when the code is present). *)
Record Keystroke := mkKey { ks_str : string; ks_code : option Z }.

(** ** types.py: enumerations *)

Inductive SortKey := SK_cpu | SK_mem | SK_read | SK_write | SK_duration.

Definition SortKey_default : SortKey := SK_duration.

Inductive QueryMode := QM_activities | QM_waiting | QM_blocking.

Definition QueryMode_default : QueryMode := QM_activities.

Definition QueryMode_eqb (a b : QueryMode) : bool :=
  match a, b with
  | QM_activities, QM_activities | QM_waiting, QM_waiting
  | QM_blocking, QM_blocking => true
  | _, _ => false
  end.

Inductive DurationMode := DM_query | DM_transaction | DM_backend.

Inductive QueryDisplayMode := QDM_truncate | QDM_wrap_noindent | QDM_wrap.

(** [enum.IntEnum]: the members in definition order and their values. *)
Class IntEnum (E : Type) := {
  members : list E;
  value : E -> Z
}.

#[export] Instance DurationMode_IntEnum : IntEnum DurationMode := {
  members := [DM_query; DM_transaction; DM_backend];
  value e := match e with DM_query => 1%Z | DM_transaction => 2%Z | DM_backend => 3%Z end
}.

#[export] Instance QueryDisplayMode_IntEnum : IntEnum QueryDisplayMode := {
  members := [QDM_truncate; QDM_wrap_noindent; QDM_wrap];
  value e := match e with QDM_truncate => 1%Z | QDM_wrap_noindent => 2%Z | QDM_wrap => 3%Z end
}.

Section IntEnumOps.
Context {E : Type} `{IntEnum E}.

(** [max(cls)]: the member of greatest value (the enum is non-empty). *)
Definition enum_max_value : Z :=
  fold_left (fun acc m => Z.max acc (value m)) members 0%Z.

(** [cls(v)]: the member of value [v], or [ValueError]. *)
Definition enum_of_value (v : Z) : result E :=
  match find (fun m => Z.eqb (value m) v) members with
  | Some m => Ok m
  | None => Raise (ValueError (PInt v))
  end.

(** types.enum_next: [e.__class__((e.value % max(e.__class__)) + 1)]. *)
Definition enum_next (e : E) : result E :=
  enum_of_value (Z.modulo (value e) enum_max_value + 1)%Z.

Fixpoint enum_next_n (n : nat) (e : E) : result E :=
  match n with
  | O => Ok e
  | S k => e' <- enum_next e ;; enum_next_n k e'
  end.
End IntEnumOps.

(** ** handlers.py *)

Module Handlers.

(** handlers.refresh_time, with the default bounds as arguments. *)
Definition refresh_time_b (key : option string) (value : Q) (minimum maximum : Q)
  : result Q :=
  if key_is key Keys.REFRESH_TIME_DECREASE then Ok (py_max (value - 1) minimum)
  else if key_is key Keys.REFRESH_TIME_INCREASE then
    Ok (py_min (inject_Z (py_int (value + 1))) maximum)
  else Raise (ValueError (match key with Some k => PStr k | None => PNone end)).

Definition refresh_time (key : option string) (value : Q) : result Q :=
  refresh_time_b key value (1 # 2) 5.

Definition key_eqb (k : Keystroke) (s : string) : bool := String.eqb (ks_str k) s.

(** handlers.duration_mode *)
Definition duration_mode (key : Keystroke) (mode : DurationMode) : result DurationMode :=
  if key_eqb key Keys.CHANGE_DURATION_MODE then enum_next mode else Ok mode.

(** handlers.verbose_mode *)
Definition verbose_mode (key : Keystroke) (mode : QueryDisplayMode)
  : result QueryDisplayMode :=
  if key_eqb key Keys.CHANGE_DISPLAY_MODE then enum_next mode else Ok mode.

(** keys.QUERYMODE_FROM_KEYS: ["1"], ["2"], ["3"] and F1, F2, F3. *)
Definition querymode_from_str (s : string) : option QueryMode :=
  if String.eqb s "1" then Some QM_activities
  else if String.eqb s "2" then Some QM_waiting
  else if String.eqb s "3" then Some QM_blocking
  else None.

Definition querymode_from_code (c : Z) : option QueryMode :=
  if Z.eqb c Keys.KEY_F1 then Some QM_activities
  else if Z.eqb c Keys.KEY_F2 then Some QM_waiting
  else if Z.eqb c Keys.KEY_F3 then Some QM_blocking
  else None.

(** handlers.query_mode *)
Definition query_mode (key : Keystroke) : option QueryMode :=
  match ks_code key with
  | Some c =>
      match querymode_from_code c with
      | Some qm => Some qm
      | None => querymode_from_str (ks_str key)
      end
  | None => querymode_from_str (ks_str key)
  end.

(** handlers.sort_key_for *)
Definition sort_key_for (key : Keystroke) (qm : QueryMode) (is_local : bool)
  : option SortKey :=
  if negb is_local || negb (QueryMode_eqb qm QM_activities) then Some SortKey_default
  else if key_eqb key Keys.SORTBY_CPU then Some SK_cpu
  else if key_eqb key Keys.SORTBY_MEM then Some SK_mem
  else if key_eqb key Keys.SORTBY_READ then Some SK_read
  else if key_eqb key Keys.SORTBY_TIME then Some SK_duration
  else if key_eqb key Keys.SORTBY_WRITE then Some SK_write
  else None.

(** ui.main: [handlers.sort_key_for(key, query_mode, is_local) or sort_key]. *)
Definition resolve_sort_key (key : Keystroke) (qm : QueryMode) (is_local : bool)
    (sort_key : SortKey) : SortKey :=
  match sort_key_for key qm is_local with Some s => s | None => sort_key end.

End Handlers.

(** Sequences of refresh-interval keystrokes, applied left to right. *)
Fixpoint apply_refresh_keys (ks : list string) (v : Q) : result Q :=
  match ks with
  | [] => Ok v
  | k :: rest => v' <- Handlers.refresh_time (Some k) v ;; apply_refresh_keys rest v'
  end.

(** keys.KEYS_BY_QUERYMODE: [_sequence_by_int(v)] is
    [(f"F{v}", str(v), curses.KEY_F{v})]. *)
Definition KEYS_BY_QUERYMODE (qm : QueryMode) : string * string * Z :=
  match qm with
  | QM_activities => ("F1", "1", Keys.KEY_F1)
  | QM_waiting => ("F2", "2", Keys.KEY_F2)
  | QM_blocking => ("F3", "3", Keys.KEY_F3)
  end.

(** A handler of a mode applied to each keystroke of a sequence in turn,
    as the loop of ui.main applies [duration_mode] and [verbose_mode]. *)
Fixpoint apply_mode_keys {E : Type} (handler : Keystroke -> E -> result E)
    (ks : list Keystroke) (e : E) : result E :=
  match ks with
  | [] => Ok e
  | k :: rest => e' <- handler k e ;; apply_mode_keys handler rest e'
  end.

(** ** types.py: Column *)

Fixpoint count_char (c : ascii) (s : string) : nat :=
  match s with
  | EmptyString => O
  | String x rest => if Ascii.eqb x c then S (count_char c rest) else count_char c rest
  end.

Record Column := mkColumn {
  col_key : string;
  col_name : string;
  template_h : string;
  mandatory : bool;
  col_sort_key : option SortKey;
  max_width : option Z
}.

(** [Column(...)] with its [template_h] validator
    [_template_h_is_a_format_string_]: [value.count("%") != 1] raises. *)
Definition make_Column (key name template : string) (mandatory : bool)
    (sort_key : option SortKey) (max_width : option Z) : result Column :=
  if negb (Nat.eqb (count_char "%" template) 1) then
    Raise (ValueError (PStr "template_h must be a format string with one placeholder"))
  else Ok (mkColumn key name template mandatory sort_key max_width).

(** The number of substitution placeholders of a printf-style template,
    in the sense of the claim: ["%%"] is an escaped literal percent sign and
    any other ["%"] starts a conversion. This is the reading of the claim,
    not code of the repository. *)
Fixpoint printf_placeholders (s : string) : nat :=
  match s with
  | String "%" (String "%" rest) => printf_placeholders rest
  | String "%" rest => S (printf_placeholders rest)
  | String _ rest => printf_placeholders rest
  | EmptyString => O
  end.

(** ** Decimal rendering of numbers *)

Definition digit_char (d : Z) : ascii := ascii_of_nat (48 + Z.to_nat d).

Fixpoint digits_go (fuel : nat) (n : Z) (acc : string) : string :=
  match fuel with
  | O => acc
  | S f =>
      if Z.ltb n 10 then String (digit_char n) acc
      else digits_go f (Z.div n 10) (String (digit_char (Z.modulo n 10)) acc)
  end.

(** [str(n)] for a Python [int]. *)
Definition str_Z (n : Z) : string :=
  let a := Z.abs n in
  let ds := digits_go (S (Z.to_nat (Z.log2 a))) a "" in
  if Z.ltb n 0 then "-" ++ ds else ds.

Fixpoint zeros (k : nat) : string :=
  match k with O => "" | S k' => String "0" (zeros k') end.

(** [s.zfill(w)], as used here on the [str] of non-negative integers. *)
Definition zfill (s : string) (w : nat) : string := zeros (w - String.length s) ++ s.

(** ["%.6d" % n] for a non-negative [n]. *)
Definition pct_06d (n : Z) : string := zfill (str_Z n) 6.

(** Round half to even, as Python rounds a float when formatting it and
    when building a [timedelta]. *)
Definition round_half_even (q : Q) : Z :=
  let f := Qfloor q in
  let r := q - inject_Z f in
  if Qlt_bool r (1#2) then f
  else if Qlt_bool (1#2) r then (f + 1)%Z
  else if Z.even f then f else (f + 1)%Z.

(** [f"{x:.6f}"]. *)
Definition fmt_6f (x : Q) : string :=
  let n := round_half_even (Qabs x * inject_Z 1000000) in
  let body := str_Z (Z.div n 1000000) ++ "." ++ pct_06d (Z.modulo n 1000000) in
  if Qlt_bool x 0 then "-" ++ body else body.

(** [datetime.timedelta(seconds=x)]: days, seconds and microseconds of the
    duration rounded to the microsecond. *)
Record timedelta := mkTimedelta { td_days : Z; td_seconds : Z; td_microseconds : Z }.

Definition timedelta_of_seconds (x : Q) : timedelta :=
  let us := round_half_even (x * inject_Z 1000000) in
  mkTimedelta (Z.div us 86400000000) (Z.modulo (Z.div us 1000000) 86400)
              (Z.modulo us 1000000).

Fixpoint ljust_go (k : nat) : string :=
  match k with O => "" | S k' => String " " (ljust_go k') end.

(** [s.ljust(w)]. *)
Definition ljust (s : string) (w : nat) : string := s ++ ljust_go (w - String.length s).

(** ** views.py: format_duration *)

Definition format_duration (duration : option Q) : string * string :=
  match duration with
  | None => (ljust "N/A" 8, "time_green")
  | Some d =>
      if Qlt_bool d 1 then
        let d := if Qlt_bool d 0 then 0 else d in
        (fmt_6f d, "time_green")
      else if Qlt_bool d 60000 then
        let color := if Qlt_bool d 3 then "time_yellow" else "time_red" in
        let duration_d := timedelta_of_seconds d in
        let mic := pct_06d (td_microseconds duration_d) in
        (zfill (str_Z (Z.div (td_seconds duration_d) 60)) 2 ++ ":" ++
         zfill (str_Z (Z.modulo (td_seconds duration_d) 60)) 2 ++ "." ++
         substring 0 2 mic, color)
      else (str_Z (py_int (d / inject_Z 3600)) ++ " h", "time_red")
  end.

(** The duration bands of the claim, as a relation between a duration and
    the rendered (text, colour) pair. Below 1 s: the decimal rendering of
    the clamped duration rounded to the microsecond [n], its integer part,
    a dot and six digits. In [1, 60000): the whole minutes, the remaining
    whole seconds and the hundredths of the duration rounded to the
    microsecond [us], each zero-padded to two digits. Above: the whole
    hours. *)
Definition duration_band (d : Q) (r : string * string) : Prop :=
  (d < 1 /\ snd r = "time_green" /\
   exists n : Z,
     Qabs (inject_Z n - inject_Z 1000000 * (if Qlt_bool d 0 then 0 else d)) <= 1#2 /\
     fst r = str_Z (n / 1000000) ++ "." ++ zfill (str_Z (n mod 1000000)) 6) \/
  (1 <= d < 60000 /\
   snd r = (if Qlt_bool d 3 then "time_yellow" else "time_red") /\
   exists us : Z,
     Qabs (inject_Z us - inject_Z 1000000 * d) <= 1#2 /\
     fst r = zfill (str_Z (us / 1000000 / 60)) 2 ++ ":" ++
             zfill (str_Z ((us / 1000000) mod 60)) 2 ++ "." ++
             zfill (str_Z ((us mod 1000000) / 10000)) 2) \/
  (60000 <= d /\ snd r = "time_red" /\
   fst r = str_Z (Qfloor (d / inject_Z 3600)) ++ " h").

(** The last [w] decimal digits of [n], leading zeros included. *)
Fixpoint fixed_digits (w : nat) (n : Z) : string :=
  match w with
  | O => ""
  | S w' => fixed_digits w' (Z.div n 10) ++ String (digit_char (Z.modulo n 10)) ""
  end.

(** ** views.py: height-limited output *)

Module Views.

(** The decorator [limit]: every line of the view is printed, then
    [next(counter) == 1] stops the view. The counter
    [itertools.count(top, -1)] is shared by all the views of one screen; its
    state is the next value it hands out ([None]: no counter passed). *)
Fixpoint limit (lines : list string) (counter : option Z) : list string * option Z :=
  match lines with
  | [] => ([], counter)
  | line :: rest =>
      match counter with
      | None => let '(out, c) := limit rest None in (line :: out, c)
      | Some n =>
          if Z.eqb n 1 then ([line], Some (n - 1)%Z)
          else let '(out, c) := limit rest (Some (n - 1)%Z) in (line :: out, c)
      end
  end.

(** The lines yielded by [header]: the title line, the size/TPS row and,
    when [system_info] is given, its three rows. *)
Definition header (title size_row : string) (system_rows : option (string * string * string))
  : list string :=
  title :: size_row ::
  match system_rows with Some (a, b, c) => [a; b; c] | None => [] end.

(** [query_mode] and [columns_header] yield one line each. *)
Definition query_mode (banner : string) : list string := [banner].
Definition columns_header (titles : string) : list string := [titles].

(** [processes_rows]: the lines of each process row ([splitlines] of its
    text), in order. *)
Definition processes_rows (rows : list (list string)) : list string := List.concat rows.

(** [screen]: the lines printed above the footer for a terminal of height
    [height]; the footer is printed at [y = height - 1] afterwards. *)
Definition screen (height : Z) (title size_row : string)
    (system_rows : option (string * string * string)) (banner titles : string)
    (rows : list (list string)) : list string :=
  let top_height := (height - 1)%Z in
  let c0 := Some top_height in
  let '(o1, c1) := limit (header title size_row system_rows) c0 in
  let '(o2, c2) := limit (query_mode banner) c1 in
  let '(o3, c3) := limit (columns_header titles) c2 in
  let '(o4, _) := limit (processes_rows rows) c3 in
  o1 ++ o2 ++ o3 ++ o4.

End Views.

(** ** ui.py: the poll-render loop, as far as the key handling and the
    peak-IOPS value go *)

(** Modelled from the spec: [activities.update_max_iops] is called by
    ui.main but is not in activities.py; §4.3 gives it as
    [max(previous_watermark, read_ops + write_ops)]. *)
Definition update_max_iops (max_iops read_count write_count : Z) : Z :=
  Z.max max_iops (read_count + write_count).

Record UiState := mkUi {
  ui_key : option Keystroke;
  ui_in_help : bool;
  ui_in_pause : bool;
  ui_query_mode : QueryMode;
  ui_sort_key : SortKey;
  ui_refresh_time : Q;
  ui_max_iops : Z
}.

Definition key_eq (key : option Keystroke) (s : string) : bool :=
  match key with Some k => Handlers.key_eqb k s | None => false end.

(** One iteration of the [while True] loop of ui.main, with [is_local] the
    local-monitoring flag, [counts] the [(read_count_delta,
    write_count_delta)] that [update_processes_local] returns this cycle and
    [next_key] the result of [term.inkey]. [None] is the [break]. *)
Definition cycle (is_local : bool) (st : UiState) (counts : Z * Z)
    (next_key : option Keystroke) : result (option UiState) :=
  let key := ui_key st in
  let max_iops := 0%Z in
  st1 <-
    (if key_eq key Keys.HELP then Ok (ui_in_pause st, true, key, ui_query_mode st,
                                     ui_sort_key st, ui_refresh_time st)
     else if ui_in_help st && key_eq key "q" then
       Ok (ui_in_pause st, false, None, ui_query_mode st, ui_sort_key st, ui_refresh_time st)
     else if key_eq key Keys.PAUSE then
       Ok (negb (ui_in_pause st), ui_in_help st, key, ui_query_mode st, ui_sort_key st,
           ui_refresh_time st)
     else if key_eq key Keys.REFRESH_TIME_INCREASE || key_eq key Keys.REFRESH_TIME_DECREASE
     then
       rt <- Handlers.refresh_time (option_map ks_str key) (ui_refresh_time st) ;;
       Ok (ui_in_pause st, ui_in_help st, key, ui_query_mode st, ui_sort_key st, rt)
     else match key with
          | Some k =>
              let qm := match Handlers.query_mode k with
                        | Some q => q | None => ui_query_mode st end in
              Ok (ui_in_pause st, ui_in_help st, key, qm,
                  Handlers.resolve_sort_key k qm is_local (ui_sort_key st), ui_refresh_time st)
          | None => Ok (ui_in_pause st, ui_in_help st, key, ui_query_mode st,
                        ui_sort_key st, ui_refresh_time st)
          end) ;;
  let '(in_pause, in_help, key, qm, sk, rt) := st1 in
  let max_iops :=
    if negb in_help && negb in_pause && QueryMode_eqb qm QM_activities && is_local
    then update_max_iops max_iops (fst counts) (snd counts)
    else max_iops in
  if key_eq key Keys.EXIT then Ok None
  else Ok (Some (mkUi next_key in_help in_pause qm sk rt max_iops)).

(** ui.main's initial state: no key, active sessions, duration sort,
    refresh time [2.0]. *)
Definition ui_init : UiState :=
  mkUi None false false QueryMode_default SortKey_default 2 0.

(** The peak-IOPS values shown after each cycle, for a sequence of cycles
    given by their operation counts and the next key read. *)
Fixpoint run (is_local : bool) (st : UiState) (cycles : list ((Z * Z) * option Keystroke))
  : result (list Z) :=
  match cycles with
  | [] => Ok []
  | (counts, k) :: rest =>
      o <- cycle is_local st counts k ;;
      match o with
      | None => Ok []
      | Some st' => tail <- run is_local st' rest ;; Ok (ui_max_iops st' :: tail)
      end
  end.

(** ** activities.py: update_processes_local *)

Module Activities.

(** [psutil.Process]: [memory_percent()] and [cpu_percent(interval=0)];
    [None] stands for a call raising [NoSuchProcess] or [AccessDenied]. *)
Record PsutilProc := mkPsutil {
  ps_memory_percent : option Q;
  ps_cpu_percent : option Q
}.

Record IOCounters := mkIO { read_bytes : Z; write_bytes : Z }.

(** [proc.extras], with the fields update_processes_local reads or writes. *)
Record Extras := mkExtras {
  io_wait : string;
  read_delta : Q;
  write_delta : Q;
  io_counters : IOCounters;
  io_time : Q;
  psutil_proc : option PsutilProc;
  mem_percent : Q;
  cpu_percent : Q;
  is_parallel_worker : bool
}.

Record Process := mkProcess {
  duration : Q;
  state : string;
  query : string;
  appname : string;
  client : string;
  wait : bool;
  database : string;
  user : string;
  extras : Extras
}.

Record ActivityProcess := mkActivityProcess {
  ap_pid : Z;
  ap_appname : string;
  ap_database : string;
  ap_user : string;
  ap_client : string;
  ap_cpu : Q;
  ap_mem : Q;
  ap_read : Q;
  ap_write : Q;
  ap_state : string;
  ap_query : string;
  ap_duration : Q;
  ap_wait : bool;
  ap_io_wait : string;
  ap_is_parallel_worker : bool
}.

(** [Dict[int, Process]] in insertion order. *)
Fixpoint assoc_find (k : Z) (l : list (Z * Process)) : option Process :=
  match l with
  | [] => None
  | (k', v) :: rest => if Z.eqb k k' then Some v else assoc_find k rest
  end.

(** [d[k] = v] for a key already in [d]. *)
Fixpoint assoc_set (k : Z) (v : Process) (l : list (Z * Process)) : list (Z * Process) :=
  match l with
  | [] => [(k, v)]
  | (k', v') :: rest => if Z.eqb k k' then (k, v) :: rest else (k', v') :: assoc_set k v rest
  end.

Definition set_mem (p : Process) (m : Q) : Process :=
  let e := extras p in
  mkProcess (duration p) (state p) (query p) (appname p) (client p) (wait p)
    (database p) (user p)
    (mkExtras (io_wait e) (read_delta e) (write_delta e) (io_counters e) (io_time e)
       (psutil_proc e) m (cpu_percent e) (is_parallel_worker e)).

Definition set_cpu (p : Process) (c : Q) : Process :=
  let e := extras p in
  mkProcess (duration p) (state p) (query p) (appname p) (client p) (wait p)
    (database p) (user p)
    (mkExtras (io_wait e) (read_delta e) (write_delta e) (io_counters e) (io_time e)
       (psutil_proc e) (mem_percent e) c (is_parallel_worker e)).

(** The loop variables of update_processes_local, the [new_processes]
    dict it assigns to, and the number of [time.time()] calls so far. *)
Record LoopSt := mkLoop {
  read_bytes_delta : Q;
  write_bytes_delta : Q;
  pids : list Z;
  procs : list ActivityProcess;
  new_procs : list (Z * Process);
  ticks : nat
}.

Section UpdateProcessesLocal.

(** [time.time()] at its [k]-th call. *)
Variable now : nat -> Q.
(** [utils.get_duration], not under src/; it only feeds the duration
    field of the rows. *)
Variable get_duration : Q -> Q.
(** The samples of the previous cycle. *)
Variable processes : list (Z * Process).

(** The [if pid in processes:] branch: [proc] is the previous sample,
    updated in place with the new sample and time [n_io_time]. *)
Definition update_existing (n_io_time : Q) (proc new_proc : Process) : result Process :=
  let e := extras proc in
  let ne := extras new_proc in
  let dt := n_io_time - io_time e in
  if Qeq_bool dt 0 then Raise ZeroDivisionError
  else
    let rd := inject_Z (read_bytes (io_counters ne) - read_bytes (io_counters e)) / dt in
    let wd := inject_Z (write_bytes (io_counters ne) - write_bytes (io_counters e)) / dt in
    Ok (mkProcess (duration new_proc) (state new_proc) (query new_proc)
          (appname new_proc) (client new_proc) (wait new_proc) (database proc) (user proc)
          (mkExtras (io_wait ne) rd wd (io_counters ne) n_io_time (psutil_proc e)
             (mem_percent e) (cpu_percent e) (is_parallel_worker e))).

Definition activity (pid : Z) (proc : Process) : ActivityProcess :=
  let e := extras proc in
  mkActivityProcess pid (appname proc) (database proc) (user proc) (client proc)
    (cpu_percent e) (mem_percent e) (read_delta e) (write_delta e) (state proc)
    (query proc) (get_duration (duration proc)) (wait proc) (io_wait e)
    (is_parallel_worker e).

(** One iteration of [for pid, new_proc in new_processes.items()]. A
    psutil exception is caught: the rest of the iteration is skipped.
    When there was no previous sample, [proc] is the very object stored in
    [new_processes], so a memory percentage set before [cpu_percent] fails
    stays in the dict. *)
Definition step (st : LoopSt) (item : Z * Process) : result LoopSt :=
  let '(pid, new_proc) := item in
  r <- match assoc_find pid processes with
       | Some old =>
           proc <- update_existing (now (ticks st)) old new_proc ;;
           Ok (proc, true, read_bytes_delta st + read_delta (extras proc),
               write_bytes_delta st + write_delta (extras proc), S (ticks st))
       | None => Ok (new_proc, false, read_bytes_delta st, write_bytes_delta st, ticks st)
       end ;;
  let '(proc, had_prior, rbd, wbd, t) := r in
  let pids' := if existsb (Z.eqb pid) (pids st) then pids st else (pids st ++ [pid])%list in
  let skipped := mkLoop rbd wbd pids' (procs st) (new_procs st) t in
  let finish (p : Process) :=
    mkLoop rbd wbd pids' ((procs st ++ [activity pid p])%list) (assoc_set pid p (new_procs st)) t in
  match psutil_proc (extras proc) with
  | None => Ok (finish proc)
  | Some h =>
      match ps_memory_percent h with
      | None => Ok skipped
      | Some m =>
          let proc1 := set_mem proc m in
          match ps_cpu_percent h with
          | None =>
              if had_prior then Ok skipped
              else Ok (mkLoop rbd wbd pids' (procs st) (assoc_set pid proc1 (new_procs st)) t)
          | Some c => Ok (finish (set_cpu proc1 c))
          end
      end
  end.

Fixpoint loop (items : list (Z * Process)) (st : LoopSt) : result LoopSt :=
  match items with
  | [] => Ok st
  | it :: rest => st' <- step st it ;; loop rest st'
  end.

(** [int(delta / fs_blocksize)] added when [delta > 0]. *)
Definition io_count (delta : Q) (fs_blocksize : Z) : result Z :=
  if Qlt_bool 0 delta then
    if Z.eqb fs_blocksize 0 then Raise ZeroDivisionError
    else Ok (0 + py_int (delta / inject_Z fs_blocksize))%Z
  else Ok 0%Z.

(** activities.update_processes_local: the io counters, the pids, the rows
    and the [new_processes] dict as left by the loop. *)
Definition update_processes_local (new_processes : list (Z * Process)) (fs_blocksize : Z)
  : result ((Q * Q * Z * Z) * list Z * list ActivityProcess * list (Z * Process)) :=
  st <- loop new_processes (mkLoop 0 0 [] [] new_processes 0) ;;
  read_count_delta <- io_count (read_bytes_delta st) fs_blocksize ;;
  write_count_delta <- io_count (write_bytes_delta st) fs_blocksize ;;
  Ok ((read_bytes_delta st, write_bytes_delta st, read_count_delta, write_count_delta),
      pids st, procs st, new_procs st).

(** The per-worker rates of the claim: for each new sample whose pid has a
    previous sample, in iteration order, (new bytes - old bytes) divided by
    the wall time elapsed since the previous sample's timestamp, the wall
    time being [time.time()] at its [k]-th call. *)
Fixpoint prior_rates (k : nat) (items : list (Z * Process)) : list (Z * (Q * Q)) :=
  match items with
  | [] => []
  | (pid, np) :: rest =>
      match assoc_find pid processes with
      | Some old =>
          let dt := now k - io_time (extras old) in
          (pid, (inject_Z (read_bytes (io_counters (extras np))
                           - read_bytes (io_counters (extras old))) / dt,
                 inject_Z (write_bytes (io_counters (extras np))
                           - write_bytes (io_counters (extras old))) / dt))
            :: prior_rates (S k) rest
      | None => prior_rates k rest
      end
  end.

End UpdateProcessesLocal.

(** Whether the psutil calls of the loop body return: no handle, or both
    [memory_percent()] and [cpu_percent()] succeed. *)
Definition psutil_calls_succeed (h : option PsutilProc) : bool :=
  match h with
  | None => true
  | Some h => match ps_memory_percent h, ps_cpu_percent h with
              | Some _, Some _ => true
              | _, _ => false
              end
  end.

(** The sample whose psutil handle the loop body uses for [pid]: the
    previous one when there is one, else the new one. *)
Definition sample_used (processes : list (Z * Process)) (item : Z * Process) : Process :=
  match assoc_find (fst item) processes with Some old => old | None => snd item end.

(** The number of samples of [items] whose pid has a previous sample: the
    number of [time.time()] calls the loop makes over them. *)
Definition prior_count (processes : list (Z * Process)) (items : list (Z * Process)) : nat :=
  List.length (filter (fun it => match assoc_find (fst it) processes with
                                 | Some _ => true | None => false end) items).

Definition sum_reads (l : list (Z * (Q * Q))) : Q := fold_right (fun x acc => fst (snd x) + acc) 0 l.
Definition sum_writes (l : list (Z * (Q * Q))) : Q := fold_right (fun x acc => snd (snd x) + acc) 0 l.

(** Modelled from the spec: [Data.sys_get_proc] (not under src/) builds the
    new samples; §4.3 has their rate fields default to zero. *)
Definition sys_get_proc (raw : list (Z * Process)) : list (Z * Process) :=
  map (fun '(pid, p) =>
         let e := extras p in
         (pid, mkProcess (duration p) (state p) (query p) (appname p) (client p) (wait p)
                 (database p) (user p)
                 (mkExtras (io_wait e) 0 0 (io_counters e) (io_time e) (psutil_proc e)
                    (mem_percent e) (cpu_percent e) (is_parallel_worker e)))) raw.

End Activities.

(** ** types.py: Flag *)

Module Flag.
Definition DATABASE : Z := 1.
Definition APPNAME : Z := 2.
Definition CLIENT : Z := 4.
Definition USER : Z := 8.
Definition CPU : Z := 16.
Definition MEM : Z := 32.
Definition READ : Z := 64.
Definition WRITE : Z := 128.
Definition TIME : Z := 256.
Definition WAIT : Z := 512.
Definition RELATION : Z := 1024.
Definition TYPE : Z := 2048.
Definition MODE : Z := 4096.
Definition IOWAIT : Z := 8192.
Definition PID : Z := 16384.

(** [cls(sum(cls))] *)
Definition all : Z :=
  DATABASE + APPNAME + CLIENT + USER + CPU + MEM + READ + WRITE + TIME + WAIT
  + RELATION + TYPE + MODE + IOWAIT + PID.

(** [if cond: flag ^= bit] *)
Definition xor_if (cond : bool) (bit flag : Z) : Z :=
  if cond then Z.lxor flag bit else flag.

(** [flag & bit], read as a truth value. *)
Definition has (flag bit : Z) : bool := negb (Z.eqb (Z.land flag bit) 0).

(** Flag.from_options *)
Definition from_options (is_local noappname noclient nocpu nodb nomem nopid noread
    notime nouser nowait nowrite : bool) : Z :=
  let flag := all in
  let flag := xor_if nodb DATABASE flag in
  let flag := xor_if nouser USER flag in
  let flag := xor_if nocpu CPU flag in
  let flag := xor_if noclient CLIENT flag in
  let flag := xor_if nomem MEM flag in
  let flag := xor_if noread READ flag in
  let flag := xor_if nowrite WRITE flag in
  let flag := xor_if notime TIME flag in
  let flag := xor_if nowait WAIT flag in
  let flag := xor_if noappname APPNAME flag in
  let flag := xor_if nopid PID flag in
  let flag := xor_if (negb is_local && has flag CPU) CPU flag in
  let flag := xor_if (negb is_local && has flag MEM) MEM flag in
  let flag := xor_if (negb is_local && has flag READ) READ flag in
  let flag := xor_if (negb is_local && has flag WRITE) WRITE flag in
  let flag := xor_if (negb is_local && has flag IOWAIT) IOWAIT flag in
  flag.
End Flag.

(** ** types.py: LockType and locktype *)

Inductive LockType :=
| LT_relation | LT_extend | LT_page | LT_tuple | LT_transactionid
| LT_virtualxid | LT_object | LT_userlock | LT_advisory.

Definition LockType_members : list LockType :=
  [LT_relation; LT_extend; LT_page; LT_tuple; LT_transactionid; LT_virtualxid;
   LT_object; LT_userlock; LT_advisory].

(** The member names; [str(lock_type)] is its name ([LockType.__str__]). *)
Definition LockType_name (t : LockType) : string :=
  match t with
  | LT_relation => "relation" | LT_extend => "extend" | LT_page => "page"
  | LT_tuple => "tuple" | LT_transactionid => "transactionid"
  | LT_virtualxid => "virtualxid" | LT_object => "object"
  | LT_userlock => "userlock" | LT_advisory => "advisory"
  end.

(** Python's [repr] of a [str], for strings of code points below 256 (an
    [ascii] is read as the Latin-1 code point of its byte): the string is
    quoted with ['] unless it holds ['] and no ["], then with ["]; the
    backslash and the chosen quote are escaped, tab, newline and carriage
    return become [\t], [\n] and [\r], and the other non-printable code
    points (below 32, 127 to 160, and 173) become [\xhh]. *)
Definition hex_digit (n : nat) : ascii :=
  ascii_of_nat (if Nat.ltb n 10 then 48 + n else 87 + n).

Definition repr_char (quote c : ascii) : string :=
  let n := nat_of_ascii c in
  if Ascii.eqb c quote || Ascii.eqb c "\"%char then String "\"%char (String c EmptyString)
  else if Ascii.eqb c "009"%char then "\t"
  else if Ascii.eqb c "010"%char then "\n"
  else if Ascii.eqb c "013"%char then "\r"
  else if Nat.ltb n 32 || Nat.eqb n 127 || (Nat.leb 128 n && Nat.ltb n 161) || Nat.eqb n 173
  then String "\"%char (String "x"%char
         (String (hex_digit (n / 16)) (String (hex_digit (n mod 16)) EmptyString)))
  else String c EmptyString.

Fixpoint repr_body (quote : ascii) (s : string) : string :=
  match s with
  | EmptyString => EmptyString
  | String c rest => repr_char quote c ++ repr_body quote rest
  end.

Definition py_repr (s : string) : string :=
  let quote := if (Nat.ltb 0 (count_char "'"%char s)) && Nat.eqb (count_char "034"%char s) 0
               then "034"%char else "'"%char in
  String quote (repr_body quote s ++ String quote EmptyString).

(** types.locktype: [LockType[value]], a [KeyError(value)] turned into
    [ValueError(f"invalid lock type {exc}")], where [str(KeyError(value))]
    is [repr(value)]. *)
Definition locktype (value : string) : result LockType :=
  match find (fun t => String.eqb (LockType_name t) value) LockType_members with
  | Some t => Ok t
  | None => Raise (ValueError (PStr ("invalid lock type " ++ py_repr value)))
  end.

(** ** activities.sorted *)

(** [getattr(p, key.name)] on an [ActivityProcess]. *)
Definition sort_value (key : SortKey) (p : Activities.ActivityProcess) : Q :=
  match key with
  | SK_cpu => Activities.ap_cpu p
  | SK_mem => Activities.ap_mem p
  | SK_read => Activities.ap_read p
  | SK_write => Activities.ap_write p
  | SK_duration => Activities.ap_duration p
  end.

Section StableSort.
Context {A : Type} (f : A -> Q).

(** Insertion of [x], which comes before every element of [l] in the input,
    into the sorted [l]: it passes only the elements of strictly smaller key,
    as Python's stable sort, which compares keys with [<]. *)
Fixpoint insert_by (x : A) (l : list A) : list A :=
  match l with
  | [] => [x]
  | y :: r => if Qlt_bool (f y) (f x) then y :: insert_by x r else x :: y :: r
  end.

(** The order [stable_sort] sorts by. *)
Definition key_le (a b : A) : Prop := f a <= f b.

(** [builtins.sorted(l, key=f)]: the stable ascending sort. *)
Fixpoint stable_sort (l : list A) : list A :=
  match l with
  | [] => []
  | x :: r => insert_by x (stable_sort r)
  end.

(** [builtins.sorted(l, key=f, reverse=reverse)]: with [reverse], CPython
    reverses the list, sorts it stably and reverses the result, so that
    elements of equal key keep their order. *)
Definition py_sorted (reverse : bool) (l : list A) : list A :=
  if reverse then rev (stable_sort (rev l)) else stable_sort l.
End StableSort.

(** activities.sorted *)
Definition activities_sorted (activities : list Activities.ActivityProcess) (key : SortKey)
    (reverse : bool) : list Activities.ActivityProcess :=
  py_sorted (sort_value key) reverse activities.

(** ** views._columns *)

(** [s.rjust(w)]; a width below [len(s)] leaves [s] as it is. *)
Definition rjust (s : string) (w : nat) : string := ljust_go (w - String.length s) ++ s.

(** views._columns: [divmod] of a Python [int] rounds toward minus
    infinity, as [Z.div] and [Z.modulo] do; a negative width pads nothing. *)
Definition _columns (left right : string) (total_width : Z) : string :=
  let column_width := Z.div total_width 2 in
  let r := Z.modulo total_width 2 in
  let column_width := if Z.eqb r 0 then column_width else (column_width - 1)%Z in
  rjust left (Z.to_nat (column_width - 1)) ++ " - "
  ++ ljust right (Z.to_nat (column_width - 1)).

(** ** types.py: Column rendering *)

(** The [%] operator of [str] with one argument, for the templates of the
    code: text, a [%s] conversion with optional ['-'] flags and an optional
    width, and text without [%]. Other templates are outside this model
    ([None]). *)
Fixpoint split_percent (s : string) : option (string * string) :=
  match s with
  | EmptyString => None
  | String "%" rest => Some ("", rest)
  | String c rest =>
      match split_percent rest with
      | Some (pre, post) => Some (String c pre, post)
      | None => None
      end
  end.

Fixpoint take_flags (s : string) (to_left : bool) : bool * string :=
  match s with
  | String "-" rest => take_flags rest true
  | _ => (to_left, s)
  end.

Definition ascii_digit (c : ascii) : option nat :=
  let n := nat_of_ascii c in
  if Nat.leb 48 n && Nat.leb n 57 then Some (n - 48)%nat else None.

Fixpoint take_width (s : string) (acc : nat) : nat * string :=
  match s with
  | String c rest =>
      match ascii_digit c with
      | Some d => take_width rest (acc * 10 + d)%nat
      | None => (acc, s)
      end
  | EmptyString => (acc, s)
  end.

Definition percent_s (template value : string) : option string :=
  match split_percent template with
  | None => None
  | Some (pre, post) =>
      let '(to_left, r1) := take_flags post false in
      let '(w, r2) := take_width r1 0 in
      match r2 with
      | String "s" suffix =>
          if Nat.eqb (count_char "%" suffix) 0
          then Some (pre ++ (if to_left then ljust value w else rjust value w) ++ suffix)
          else None
      | _ => None
      end
  end.

(** [value[:max_width]] *)
Definition py_slice_to (value : string) (stop : option Z) : string :=
  match stop with
  | None => value
  | Some n =>
      if Z.leb 0 n then substring 0 (Z.to_nat n) value
      else substring 0 (String.length value - Z.to_nat (- n)) value
  end.

Definition SortKey_eqb (a b : SortKey) : bool :=
  match a, b with
  | SK_cpu, SK_cpu | SK_mem, SK_mem | SK_read, SK_read | SK_write, SK_write
  | SK_duration, SK_duration => true
  | _, _ => false
  end.

(** Column.title_render *)
Definition title_render (c : Column) : option string := percent_s (template_h c) (col_name c).

(** Column.title_color: [self.sort_key == sort_by] *)
Definition title_color (c : Column) (sort_by : SortKey) : string :=
  match col_sort_key c with
  | Some k => if SortKey_eqb k sort_by then "cyan" else "green"
  | None => "green"
  end.

(** Column.render *)
Definition render (c : Column) (value : string) : option string :=
  percent_s (template_h c) (py_slice_to value (max_width c)).

(** ** types.py: UI.make, UI.column and UI.columns *)

Module UI.

(** The outcome of [UI.make]: a value, a raised exception or a failed
    [assert]. *)
Inductive outcome (A : Type) :=
| Done (a : A)
| Failed (e : exn)
| AssertFailed (msg : string).
Arguments Done {A} a.
Arguments Failed {A} e.
Arguments AssertFailed {A} msg.

(** [add_column(key, name=..., template_h=..., sort_key=..., max_width=...)]
    on the dict [possible_columns], an association list in insertion order;
    [mandatory] keeps its default [False]. *)
Definition add_column (possible_columns : list (string * Column))
    (key name template : string) (sort_key : option SortKey) (max_width : option Z)
  : outcome (list (string * Column)) :=
  if existsb (fun kc => String.eqb (fst kc) key) possible_columns
  then AssertFailed ("duplicated key " ++ key)
  else match make_Column key name template false sort_key max_width with
       | Ok c => Done (possible_columns ++ [(key, c)])%list
       | Raise e => Failed e
       end.

(** One [add_column] call of [UI.make] with the flag that guards it
    ([None]: unconditional). *)
Record entry := mkEntry {
  e_flag : option Z;
  e_key : string;
  e_name : string;
  e_template : string;
  e_sort_key : option SortKey;
  e_max_width : option Z
}.

(** The [add_column] calls of [UI.make], in the order of the code. *)
Definition entries (max_db_length : Z) : list entry :=
  [mkEntry (Some Flag.APPNAME) "appname" "APP" "%16s " None (Some 16%Z);
   mkEntry (Some Flag.CLIENT) "client" "CLIENT" "%16s " None (Some 16%Z);
   mkEntry (Some Flag.CPU) "cpu" "CPU%" "%6s " (Some SK_cpu) None;
   mkEntry (Some Flag.DATABASE) "database" "DATABASE"
     ("%-" ++ str_Z max_db_length ++ "s ") None (Some 16%Z);
   mkEntry (Some Flag.IOWAIT) "iowait" "IOW" "%4s " None None;
   mkEntry (Some Flag.MEM) "mem" "MEM%" "%4s " (Some SK_mem) None;
   mkEntry (Some Flag.MODE) "mode" "MODE" "%16s " None (Some 16%Z);
   mkEntry (Some Flag.PID) "pid" "PID" "%-6s " None None;
   mkEntry None "query" "Query" " %2s" None None;
   mkEntry (Some Flag.READ) "read" "READ/s" "%8s " (Some SK_read) None;
   mkEntry (Some Flag.RELATION) "relation" "RELATION" "%9s " None (Some 9%Z);
   mkEntry None "state" "state" " %17s  " None None;
   mkEntry (Some Flag.TIME) "time" "TIME+" "%9s " (Some SK_duration) None;
   mkEntry (Some Flag.TYPE) "type" "TYPE" "%16s " None (Some 16%Z);
   mkEntry (Some Flag.USER) "user" "USER" "%16s " None (Some 16%Z);
   mkEntry (Some Flag.WAIT) "wait" "W" "%2s " None None;
   mkEntry (Some Flag.WRITE) "write" "WRITE/s" "%8s " None None].

(** [if Flag.X & flag:] *)
Definition guard (flag : Z) (g : option Z) : bool :=
  match g with None => true | Some bit => Flag.has flag bit end.

Fixpoint add_columns (flag : Z) (possible_columns : list (string * Column))
    (es : list entry) : outcome (list (string * Column)) :=
  match es with
  | [] => Done possible_columns
  | e :: rest =>
      if guard flag (e_flag e) then
        match add_column possible_columns (e_key e) (e_name e) (e_template e)
                (e_sort_key e) (e_max_width e) with
        | Done pc => add_columns flag pc rest
        | Failed x => Failed x
        | AssertFailed m => AssertFailed m
        end
      else add_columns flag possible_columns rest
  end.

(** The [possible_columns] entry an [add_column] call adds. *)
Definition entry_column (e : entry) : string * Column :=
  (e_key e, mkColumn (e_key e) (e_name e) (e_template e) false (e_sort_key e) (e_max_width e)).

(** The [Flag] member named after each column key; ["query"] and
    ["state"] have none. *)
Definition column_flag (key : string) : option Z :=
  if String.eqb key "appname" then Some Flag.APPNAME
  else if String.eqb key "client" then Some Flag.CLIENT
  else if String.eqb key "cpu" then Some Flag.CPU
  else if String.eqb key "database" then Some Flag.DATABASE
  else if String.eqb key "iowait" then Some Flag.IOWAIT
  else if String.eqb key "mem" then Some Flag.MEM
  else if String.eqb key "mode" then Some Flag.MODE
  else if String.eqb key "pid" then Some Flag.PID
  else if String.eqb key "read" then Some Flag.READ
  else if String.eqb key "relation" then Some Flag.RELATION
  else if String.eqb key "time" then Some Flag.TIME
  else if String.eqb key "type" then Some Flag.TYPE
  else if String.eqb key "user" then Some Flag.USER
  else if String.eqb key "wait" then Some Flag.WAIT
  else if String.eqb key "write" then Some Flag.WRITE
  else None.

(** [columns_key_by_querymode] *)
Definition columns_key_by_querymode (qm : QueryMode) : list string :=
  match qm with
  | QM_activities =>
      ["pid"; "database"; "appname"; "user"; "client"; "cpu"; "mem"; "read";
       "write"; "time"; "wait"; "iowait"; "state"; "query"]
  | QM_waiting | QM_blocking =>
      ["pid"; "database"; "appname"; "user"; "client"; "relation"; "type";
       "mode"; "time"; "state"; "query"]
  end.

Fixpoint dict_get (d : list (string * Column)) (k : string) : option Column :=
  match d with
  | [] => None
  | (k', c) :: rest => if String.eqb k' k then Some c else dict_get rest k
  end.

(** [make_columns_for]: a [KeyError] skips the key. *)
Definition make_columns_for (possible_columns : list (string * Column)) (qm : QueryMode)
  : list Column :=
  List.concat (map (fun k => match dict_get possible_columns k with
                             | Some c => [c] | None => [] end)
                   (columns_key_by_querymode qm)).

Record UI := mkUI {
  columns_by_querymode : QueryMode -> list Column;
  flag : Z;
  min_duration : Q;
  duration_mode : DurationMode;
  verbose_mode : QueryDisplayMode;
  sort_key : SortKey;
  query_mode : QueryMode;
  refresh_time : Q;
  in_pause : bool
}.

(** [UI.make(flag, max_db_length=..., query_mode=...)], the other fields at
    their defaults. *)
Definition make (flag : Z) (max_db_length : Z) (qm : QueryMode) : outcome UI :=
  match add_columns flag [] (entries max_db_length) with
  | Done pc =>
      Done (mkUI (make_columns_for pc) flag 0 DM_query QDM_wrap_noindent SortKey_default
              qm 2 false)
  | Failed e => Failed e
  | AssertFailed m => AssertFailed m
  end.

(** UI.columns *)
Definition columns (ui : UI) : list Column := columns_by_querymode ui (query_mode ui).

(** UI.column *)
Definition column (ui : UI) (key : string) : result Column :=
  match find (fun c => String.eqb (col_key c) key) (columns ui) with
  | Some c => Ok c
  | None => Raise (ValueError (PStr key))
  end.

End UI.

(** A sample with the given cumulative byte counters and timestamp, no
    psutil handle and zero rates, for the concrete runs below. *)
Definition sample_proc (rb wb : Z) (t : Q) : Activities.Process :=
  Activities.mkProcess 0 "active" "SELECT 1" "pgbench" "local" false "pgbench" "postgres"
    (Activities.mkExtras "N" 0 0 (Activities.mkIO rb wb) t None 0 0 false).

(** A new sample whose [cpu_percent()] call raises. *)
Definition lost_proc : Activities.Process :=
  Activities.mkProcess 0 "idle" "" "psql" "local" false "pgbench" "postgres"
    (Activities.mkExtras "N" 0 0 (Activities.mkIO 0 0) 0 (Some (Activities.mkPsutil (Some 1) None)) 0 0 false).

(** A row has the rate of the claim: the rate of [prior_rates] for its pid
    when the pid had a previous sample, zero otherwise. *)
Definition rate_ok (processes : list (Z * Activities.Process)) (rates : list (Z * (Q * Q)))
    (a : Activities.ActivityProcess) : Prop :=
  match Activities.assoc_find (Activities.ap_pid a) processes with
  | Some _ => In (Activities.ap_pid a, (Activities.ap_read a, Activities.ap_write a)) rates
  | None => Activities.ap_read a = 0 /\ Activities.ap_write a = 0
  end.

Definition fresh_sample (it : Z * Activities.Process) : Prop :=
  Activities.read_delta (Activities.extras (snd it)) = 0 /\
  Activities.write_delta (Activities.extras (snd it)) = 0.

(** * Properties *)

(** Doctests of handlers.py. *)
Example refresh_time_doctest :
  Handlers.refresh_time (Some "+") 1 = Ok 2 /\
  Handlers.refresh_time (Some "+") 5 = Ok 5 /\
  Handlers.refresh_time_b (Some "+") 5 (1#2) 10 = Ok 6 /\
  Handlers.refresh_time (Some "-") 2 = Ok 1 /\
  Handlers.refresh_time (Some "-") 1 = Ok (1#2) /\
  Handlers.refresh_time (Some "-") (1#2) = Ok (1#2) /\
  Handlers.refresh_time (Some "=") 42 = Raise (ValueError (PStr "=")).
Proof. vm_compute. repeat split. Qed.

Example enum_next_doctest :
  enum_next DM_transaction = Ok DM_backend /\
  enum_next QDM_wrap_noindent = Ok QDM_wrap /\
  enum_next QDM_wrap = Ok QDM_truncate.
Proof. vm_compute. repeat split. Qed.

(** ** Refresh interval (handlers.refresh_time) *)

Lemma py_int_nonneg (q : Q) : 0 <= q -> py_int q = Qfloor q.
Proof.
  intro Hq. unfold py_int.
  destruct (Qle_bool 0 q) eqn:E; [reflexivity|].
  apply not_true_iff_false in E. exfalso. apply E. apply Qle_bool_iff. exact Hq.
Qed.

Lemma py_max_cases (a b : Q) : py_max a b = a /\ b <= a \/ py_max a b = b /\ a < b.
Proof.
  unfold py_max, Qlt_bool. destruct (Qle_bool b a) eqn:E; simpl.
  - left. split; [reflexivity|]. apply Qle_bool_iff. exact E.
  - right. split; [reflexivity|]. apply Qnot_le_lt. intro H.
    apply Qle_bool_iff in H. congruence.
Qed.

Lemma py_min_cases (a b : Q) : py_min a b = a /\ a <= b \/ py_min a b = b /\ b < a.
Proof.
  unfold py_min, Qlt_bool. destruct (Qle_bool a b) eqn:E; simpl.
  - left. split; [reflexivity|]. apply Qle_bool_iff. exact E.
  - right. split; [reflexivity|]. apply Qnot_le_lt. intro H.
    apply Qle_bool_iff in H. congruence.
Qed.

(** One "+" or "-" keystroke keeps the interval within [0.5, 5]. *)
Lemma refresh_time_step_bounded (k : string) (v : Q) :
  k = "+" \/ k = "-" -> 1#2 <= v <= 5 ->
  exists v', Handlers.refresh_time (Some k) v = Ok v' /\ 1#2 <= v' <= 5.
Proof.
  intros [-> | ->] [Hlo Hhi]; unfold Handlers.refresh_time, Handlers.refresh_time_b;
    simpl.
  - eexists. split; [reflexivity|].
    assert (Hf : (1 <= Qfloor (v + 1))%Z).
    { assert (H1 : (Qfloor 1 <= Qfloor (v + 1))%Z) by (apply Qfloor_resp_le; lra).
      exact H1. }
    rewrite py_int_nonneg by lra.
    rewrite Zle_Qle in Hf.
    destruct (py_min_cases (inject_Z (Qfloor (v + 1))) 5) as [[-> H] | [-> H]].
    + split; [|exact H]. apply Qle_trans with (inject_Z 1); [|exact Hf].
      unfold Qle; simpl; lia.
    + split; lra.
  - eexists. split; [reflexivity|].
    destruct (py_max_cases (v - 1) (1#2)) as [[-> H] | [-> H]]; split; lra.
Qed.

(** ** Cyclic enumerations (types.enum_next) *)

Ltac enum_cycle :=
  match goal with
  | |- forall e, _ => intros e; destruct e; vm_compute; repeat split;
                      intros k Hk; destruct k as [|[|[|k]]]; vm_compute;
                      try lia; congruence
  end.

(** C7: advancing a duration mode or a query display mode with
    [enum_next] as many times as the enumeration has members (3) gives the
    member back, and one or two advances never do. *)
Theorem enum_next_cycle_length :
  List.length (@members DurationMode _) = 3%nat /\
  List.length (@members QueryDisplayMode _) = 3%nat /\
  (forall e : DurationMode,
      enum_next_n 3 e = Ok e /\
      forall k : nat, (0 < k < 3)%nat -> enum_next_n k e <> Ok e) /\
  (forall e : QueryDisplayMode,
      enum_next_n 3 e = Ok e /\
      forall k : nat, (0 < k < 3)%nat -> enum_next_n k e <> Ok e).
Proof.
  split; [reflexivity|]. split; [reflexivity|].
  split; enum_cycle.
Qed.

(** C5: for every sequence of refresh-increase ("+") and refresh-decrease
    ("-") keystrokes applied with [handlers.refresh_time] to an interval in
    [0.5, 5], the interval stays in [0.5, 5]; increasing 1 twice gives 3 and
    decreasing 1 twice gives 0.5. *)
Theorem refresh_time_sequence_bounded (ks : list string) (v : Q)
    (Hks : Forall (fun k => k = "+" \/ k = "-") ks) (Hv : 1#2 <= v <= 5) :
  (exists v', apply_refresh_keys ks v = Ok v' /\ 1#2 <= v' <= 5) /\
  apply_refresh_keys ["+"; "+"] 1 = Ok 3 /\
  apply_refresh_keys ["-"; "-"] 1 = Ok (1#2).
Proof.
  split; [|vm_compute; split; reflexivity].
  revert v Hv. induction Hks as [|k ks Hk _ IH]; intros v Hv.
  - exists v. split; [reflexivity|exact Hv].
  - destruct (refresh_time_step_bounded k v Hk Hv) as [v1 [E1 H1]].
    simpl. rewrite E1. simpl. apply IH. exact H1.
Qed.

Lemma refresh_time_sequence_bounded_witness :
  Forall (fun k => k = "+" \/ k = "-") ["+"; "-"; "+"] /\ 1#2 <= 2 <= 5 /\
  ((exists v', apply_refresh_keys ["+"; "-"; "+"] 2 = Ok v' /\ 1#2 <= v' <= 5) /\
   apply_refresh_keys ["+"; "+"] 1 = Ok 3 /\
   apply_refresh_keys ["-"; "-"] 1 = Ok (1#2)).
Proof.
  assert (Hks : Forall (fun k => k = "+" \/ k = "-") ["+"; "-"; "+"])
    by (repeat constructor; auto).
  assert (Hv : 1#2 <= 2 <= 5) by (split; vm_compute; discriminate).
  split; [exact Hks|]. split; [exact Hv|].
  exact (refresh_time_sequence_bounded ["+"; "-"; "+"] 2 Hks Hv).
Defined.

(** C10: for every key other than "+" and "-", [None] included,
    [handlers.refresh_time] raises [ValueError(key)]; it never returns an
    interval for such a key. *)
Theorem refresh_time_other_key_raises (key : option string) (v : Q)
    (Hinc : key <> Some "+") (Hdec : key <> Some "-") :
  Handlers.refresh_time key v =
    Raise (ValueError (match key with Some k => PStr k | None => PNone end)) /\
  forall v', Handlers.refresh_time key v <> Ok v'.
Proof.
  assert (E : Handlers.refresh_time key v =
    Raise (ValueError (match key with Some k => PStr k | None => PNone end))).
  { unfold Handlers.refresh_time, Handlers.refresh_time_b, key_is.
    destruct key as [k|]; [|reflexivity].
    destruct (String.eqb k Keys.REFRESH_TIME_DECREASE) eqn:Ed.
    { apply String.eqb_eq in Ed. subst k. contradiction. }
    destruct (String.eqb k Keys.REFRESH_TIME_INCREASE) eqn:Ei.
    { apply String.eqb_eq in Ei. subst k. contradiction. }
    reflexivity. }
  split; [exact E|]. intros v' H. rewrite E in H. discriminate.
Qed.

Lemma refresh_time_other_key_raises_witness :
  Some "=" <> Some "+" /\ Some "=" <> Some "-" /\
  (Handlers.refresh_time (Some "=") 42 = Raise (ValueError (PStr "=")) /\
   forall v', Handlers.refresh_time (Some "=") 42 <> Ok v').
Proof.
  assert (H1 : Some "=" <> Some "+") by discriminate.
  assert (H2 : Some "=" <> Some "-") by discriminate.
  split; [exact H1|]. split; [exact H2|].
  exact (refresh_time_other_key_raises (Some "=") 42 H1 H2).
Defined.

(** C6: whenever the query mode is blocking or waiting, or local sampling
    is unavailable, [handlers.sort_key_for] yields the duration key for any
    keystroke, and so does the sort key resolved by ui.main
    ([sort_key_for(...) or sort_key]) whatever the previous key. *)
Theorem sort_key_for_fallback_duration (key : Keystroke) (qm : QueryMode)
    (is_local : bool) (sort_key : SortKey)
    (H : qm = QM_blocking \/ qm = QM_waiting \/ is_local = false) :
  Handlers.sort_key_for key qm is_local = Some SK_duration /\
  Handlers.resolve_sort_key key qm is_local sort_key = SK_duration.
Proof.
  assert (E : Handlers.sort_key_for key qm is_local = Some SK_duration).
  { unfold Handlers.sort_key_for.
    destruct H as [-> | [-> | ->]]; try destruct is_local; reflexivity. }
  split; [exact E|]. unfold Handlers.resolve_sort_key. rewrite E. reflexivity.
Qed.

Lemma sort_key_for_fallback_duration_witness :
  (QM_activities = QM_blocking \/ QM_activities = QM_waiting \/ false = false) /\
  (Handlers.sort_key_for (mkKey "c" None) QM_activities false = Some SK_duration /\
   Handlers.resolve_sort_key (mkKey "c" None) QM_activities false SK_mem = SK_duration).
Proof.
  assert (H : QM_activities = QM_blocking \/ QM_activities = QM_waiting \/ false = false)
    by (right; right; reflexivity).
  split; [exact H|].
  exact (sort_key_for_fallback_duration (mkKey "c" None) QM_activities false SK_mem H).
Defined.

Example format_duration_doctest :
  format_duration None = ("N/A     ", "time_green") /\
  format_duration (Some (-62 # 1000000)) = ("0.000000", "time_green") /\
  format_duration (Some (1 # 10)) = ("0.100000", "time_green") /\
  format_duration (Some (12 # 10)) = ("00:01.20", "time_yellow") /\
  format_duration (Some 12345) = ("205:45.00", "time_red") /\
  format_duration (Some 60001) = ("16 h", "time_red").
Proof. vm_compute. repeat split. Qed.

(** ** Column templates (types.Column) *)

(** C9 (code bug): the template ["%s%%"] has exactly one substitution
    placeholder (["%%"] is an escaped percent sign, as the validator's own
    doctest ["b%%aa"] shows), so it is the format string with one
    placeholder that the validator's message asks for; yet constructing a
    column with it raises [ValueError], since the validator counts the
    ["%"] characters. *)
Lemma column_single_placeholder_rejected :
  printf_placeholders "%s%%" = 1%nat /\
  make_Column "k" "a" "%s%%" false None None =
    Raise (ValueError (PStr "template_h must be a format string with one placeholder")).
Proof. vm_compute. split; reflexivity. Qed.

(** ** Duration rendering (views.format_duration) *)

Lemma Qlt_bool_iff (a b : Q) : Qlt_bool a b = true <-> a < b.
Proof.
  unfold Qlt_bool. rewrite negb_true_iff. split.
  - intros H. apply Qnot_le_lt. intros H'. apply Qle_bool_iff in H'. congruence.
  - intros H. destruct (Qle_bool b a) eqn:E; [|reflexivity].
    apply Qle_bool_iff in E. exfalso. apply (Qlt_not_le _ _ H E).
Qed.

Lemma Qlt_bool_false (a b : Q) : Qlt_bool a b = false <-> b <= a.
Proof.
  split.
  - intros H. apply Qnot_lt_le. intros H'. apply Qlt_bool_iff in H'. congruence.
  - intros H. destruct (Qlt_bool a b) eqn:E; [|reflexivity].
    apply Qlt_bool_iff in E. exfalso. apply (Qlt_not_le _ _ E H).
Qed.

Lemma slen_app (s t : string) :
  String.length (s ++ t) = (String.length s + String.length t)%nat.
Proof. induction s as [|c s IH]; simpl; [reflexivity|]. rewrite IH. reflexivity. Qed.

Lemma zeros_len (k : nat) : String.length (zeros k) = k.
Proof. induction k as [|k IH]; simpl; [reflexivity|]. rewrite IH. reflexivity. Qed.

Lemma zfill_len (s : string) (w : nat) :
  String.length (zfill s w) = Nat.max w (String.length s).
Proof. unfold zfill. rewrite slen_app, zeros_len. lia. Qed.

Lemma substring0_len (n : nat) (s : string) :
  String.length (substring 0 n s) = Nat.min n (String.length s).
Proof.
  revert n. induction s as [|c s IH]; intros [|n]; simpl; try reflexivity.
  rewrite IH. reflexivity.
Qed.

Lemma digits_go_len (fuel : nat) :
  forall n acc k, (0 <= n < 10 ^ Z.of_nat k)%Z -> (1 <= k)%nat ->
  (String.length (digits_go fuel n acc) <= k + String.length acc)%nat.
Proof.
  induction fuel as [|fuel IH]; simpl; intros n acc k Hn Hk; [lia|].
  destruct (Z.ltb n 10) eqn:E; simpl; [lia|].
  apply Z.ltb_ge in E.
  destruct k as [|[|k]]; [lia| |].
  - simpl in Hn. lia.
  - specialize (IH (n / 10)%Z (String (digit_char (n mod 10)) acc) (S k)).
    simpl in IH.
    assert (Hd : (0 <= n / 10 < 10 ^ Z.of_nat (S k))%Z).
    { split; [apply Z.div_pos; lia|].
      apply Z.div_lt_upper_bound; [lia|].
      replace (10 * 10 ^ Z.of_nat (S k))%Z with (10 ^ Z.of_nat (S (S k)))%Z; [lia|].
      rewrite !Nat2Z.inj_succ, (Z.pow_succ_r 10 (Z.succ (Z.of_nat k))); [reflexivity|lia]. }
    specialize (IH Hd ltac:(lia)). lia.
Qed.

Lemma str_Z_len (n : Z) (k : nat) :
  (0 <= n < 10 ^ Z.of_nat k)%Z -> (1 <= k)%nat -> (String.length (str_Z n) <= k)%nat.
Proof.
  intros Hn Hk. unfold str_Z.
  replace (Z.abs n) with n by lia.
  replace (Z.ltb n 0) with false by (symmetry; apply Z.ltb_ge; lia).
  pose proof (digits_go_len (S (Z.to_nat (Z.log2 n))) n "" k Hn Hk) as H.
  change (String.length "") with 0%nat in H. lia.
Qed.

Lemma pct_06d_len (n : Z) : (0 <= n < 1000000)%Z -> String.length (pct_06d n) = 6%nat.
Proof.
  intros Hn. unfold pct_06d. rewrite zfill_len.
  pose proof (str_Z_len n 6 ltac:(simpl; lia) ltac:(lia)). lia.
Qed.

Lemma pct_06d_len_ge (n : Z) : (6 <= String.length (pct_06d n))%nat.
Proof. unfold pct_06d. rewrite zfill_len. lia. Qed.

Lemma fmt_6f_shape (x : Q) :
  0 <= x -> exists ip fr, fmt_6f x = ip ++ "." ++ fr /\ String.length fr = 6%nat.
Proof.
  intros Hx. unfold fmt_6f.
  replace (Qlt_bool x 0) with false by (symmetry; apply Qlt_bool_false; exact Hx).
  do 2 eexists. split; [reflexivity|].
  apply pct_06d_len. apply Z.mod_pos_bound. lia.
Qed.

Lemma str_Z_fuel (a : Z) : (0 <= a)%Z -> (a < 10 ^ Z.of_nat (S (Z.to_nat (Z.log2 a))))%Z.
Proof.
  intro Ha. rewrite Nat2Z.inj_succ, Z2Nat.id by apply Z.log2_nonneg.
  destruct (Z.eq_dec a 0) as [->|Ha0]; [reflexivity|].
  apply Z.lt_le_trans with (2 ^ Z.succ (Z.log2 a))%Z.
  - apply Z.log2_spec. lia.
  - apply Z.pow_le_mono_l. split; [lia|lia].
Qed.

Lemma round_half_even_near (q : Q) : Qabs (inject_Z (round_half_even q) - q) <= 1#2.
Proof.
  unfold round_half_even.
  pose proof (Qfloor_le q) as Hl. pose proof (Qlt_floor q) as Hu.
  rewrite inject_Z_plus in Hu. change (inject_Z 1) with (1#1) in Hu.
  apply Qabs_Qle_condition.
  destruct (Qlt_bool (q - inject_Z (Qfloor q)) (1#2)) eqn:E1.
  - apply Qlt_bool_iff in E1. split; lra.
  - apply Qlt_bool_false in E1.
    destruct (Qlt_bool (1#2) (q - inject_Z (Qfloor q))) eqn:E2.
    + apply Qlt_bool_iff in E2. rewrite inject_Z_plus. change (inject_Z 1) with (1#1).
      split; lra.
    + apply Qlt_bool_false in E2.
      destruct (Z.even (Qfloor q)); [|rewrite inject_Z_plus; change (inject_Z 1) with (1#1)];
        split; lra.
Qed.

Lemma sapp_nil_r (s : string) : (s ++ "")%string = s.
Proof. induction s as [|c s IH]; simpl; [reflexivity|]. rewrite IH. reflexivity. Qed.

Lemma sapp_assoc (s t u : string) : (s ++ (t ++ u) = (s ++ t) ++ u)%string.
Proof. induction s as [|c s IH]; simpl; [reflexivity|]. rewrite IH. reflexivity. Qed.

Lemma fixed_digits_len (w : nat) (n : Z) : String.length (fixed_digits w n) = w.
Proof.
  revert n. induction w as [|w IH]; intro n; cbn [fixed_digits]; [reflexivity|].
  rewrite slen_app, IH. simpl. lia.
Qed.

Lemma zeros_snoc (k : nat) : (zeros k ++ "0")%string = String "0" (zeros k).
Proof. induction k as [|k IH]; simpl; [reflexivity|]. rewrite IH. reflexivity. Qed.

Lemma fixed_digits_zero (j : nat) : fixed_digits j 0 = zeros j.
Proof.
  induction j as [|j IH]; cbn [fixed_digits]; [reflexivity|].
  change (Z.div 0 10) with 0%Z. rewrite IH. exact (zeros_snoc j).
Qed.

Lemma fixed_digits_pad (j k : nat) :
  forall n, (0 <= n < 10 ^ Z.of_nat k)%Z -> fixed_digits (j + k) n = (zeros j ++ fixed_digits k n)%string.
Proof.
  induction k as [|k IH]; intros n Hn.
  - simpl in Hn. replace n with 0%Z by lia. rewrite Nat.add_0_r, fixed_digits_zero.
    cbn [fixed_digits]. rewrite sapp_nil_r. reflexivity.
  - rewrite Nat.add_succ_r. cbn [fixed_digits].
    rewrite IH, sapp_assoc; [reflexivity|].
    rewrite Nat2Z.inj_succ, Z.pow_succ_r in Hn by lia.
    split; [apply Z.div_pos; lia|]. apply Z.div_lt_upper_bound; lia.
Qed.

Lemma digits_go_fixed (fuel : nat) :
  forall n acc, (1 <= fuel)%nat -> (0 <= n < 10 ^ Z.of_nat fuel)%Z ->
  exists L, (1 <= L)%nat /\ digits_go fuel n acc = (fixed_digits L n ++ acc)%string /\
    (n < 10 ^ Z.of_nat L)%Z /\ (L = 1%nat \/ (10 ^ (Z.of_nat L - 1) <= n)%Z).
Proof.
  induction fuel as [|f IH]; intros n acc Hf Hn; [lia|].
  cbn [digits_go]. destruct (Z.ltb n 10) eqn:E.
  - apply Z.ltb_lt in E. exists 1%nat. split; [lia|].
    split; [|split; [simpl; lia|left; reflexivity]].
    cbn [fixed_digits]. rewrite Z.mod_small by lia. reflexivity.
  - apply Z.ltb_ge in E.
    assert (Hd : (0 <= n / 10 < 10 ^ Z.of_nat f)%Z).
    { split; [apply Z.div_pos; lia|].
      rewrite Nat2Z.inj_succ, Z.pow_succ_r in Hn by lia.
      apply Z.div_lt_upper_bound; lia. }
    assert (Hf' : (1 <= f)%nat).
    { destruct f; [|lia]. simpl in Hd. assert (1 <= n / 10)%Z by (apply Z.div_le_lower_bound; lia).
      lia. }
    destruct (IH (n / 10)%Z (String (digit_char (n mod 10)) acc) Hf' Hd)
      as [L [HL [Heq [Hlt Hge]]]].
    exists (S L). split; [lia|]. split.
    + rewrite Heq. cbn [fixed_digits]. rewrite <- sapp_assoc. reflexivity.
    + pose proof (Z.div_mod n 10 ltac:(lia)). pose proof (Z.mod_pos_bound n 10 ltac:(lia)).
      split.
      * rewrite Nat2Z.inj_succ, Z.pow_succ_r by lia. lia.
      * right. replace (Z.of_nat (S L) - 1)%Z with (Z.of_nat L) by lia.
        destruct Hge as [-> | Hge]; [simpl; lia|].
        replace (Z.of_nat L) with (Z.succ (Z.of_nat L - 1)) by lia.
        rewrite Z.pow_succ_r by lia. lia.
Qed.

Lemma zfill_str_Z (n : Z) (w : nat) :
  (1 <= w)%nat -> (0 <= n < 10 ^ Z.of_nat w)%Z -> zfill (str_Z n) w = fixed_digits w n.
Proof.
  intros Hw Hn. unfold zfill, str_Z.
  replace (Z.abs n) with n by lia.
  replace (Z.ltb n 0) with false by (symmetry; apply Z.ltb_ge; lia).
  destruct (digits_go_fixed (S (Z.to_nat (Z.log2 n))) n "" ltac:(lia)
              ltac:(split; [lia|apply str_Z_fuel; lia]))
    as [L [HL [Heq [Hlt Hge]]]].
  rewrite Heq, sapp_nil_r, fixed_digits_len.
  assert (HLw : (L <= w)%nat).
  { destruct Hge as [-> | Hge]; [lia|].
    assert (Z.of_nat L - 1 < Z.of_nat w)%Z; [|lia].
    apply (Z.pow_lt_mono_r_iff 10); lia. }
  rewrite <- fixed_digits_pad by exact (conj (proj1 Hn) Hlt).
  f_equal. lia.
Qed.

Lemma fixed_digits_split (j k : nat) :
  forall n, (0 <= n)%Z ->
  fixed_digits (k + j) n =
    (fixed_digits k (n / 10 ^ Z.of_nat j) ++ fixed_digits j (n mod 10 ^ Z.of_nat j))%string.
Proof.
  induction j as [|j IH]; intros n Hn.
  - rewrite Nat.add_0_r. simpl. rewrite Z.div_1_r, sapp_nil_r. reflexivity.
  - rewrite Nat.add_succ_r. cbn [fixed_digits].
    rewrite IH by (apply Z.div_pos; lia).
    assert (Hp : (10 ^ Z.of_nat (S j) = 10 * 10 ^ Z.of_nat j)%Z)
      by (rewrite Nat2Z.inj_succ, Z.pow_succ_r by lia; reflexivity).
    pose proof (Z.pow_pos_nonneg 10 (Z.of_nat j) ltac:(lia) ltac:(lia)) as Hpos.
    assert (Hm : (n mod 10 ^ Z.of_nat (S j) = n mod 10 + ((n / 10) mod 10 ^ Z.of_nat j) * 10)%Z).
    { rewrite Hp. symmetry. apply (Z.mod_unique n _ (n / 10 / 10 ^ Z.of_nat j)).
      - pose proof (Z.mod_pos_bound n 10 ltac:(lia)).
        pose proof (Z.mod_pos_bound (n / 10) (10 ^ Z.of_nat j) Hpos). left. lia.
      - pose proof (Z.div_mod n 10 ltac:(lia)).
        pose proof (Z.div_mod (n / 10) (10 ^ Z.of_nat j) ltac:(lia)). lia. }
    assert (A : (n / 10 / 10 ^ Z.of_nat j = n / 10 ^ Z.of_nat (S j))%Z)
      by (rewrite Hp, Z.div_div by lia; reflexivity).
    assert (B : (n mod 10 ^ Z.of_nat (S j) / 10 = (n / 10) mod 10 ^ Z.of_nat j)%Z).
    { rewrite Hm, Z.div_add by lia. rewrite Z.div_small by (apply Z.mod_pos_bound; lia). lia. }
    assert (C : (n mod 10 ^ Z.of_nat (S j) mod 10 = n mod 10)%Z)
      by (rewrite Hm, Z.mod_add, Z.mod_mod by lia; reflexivity).
    rewrite A, B, C, sapp_assoc. reflexivity.
Qed.

Lemma substring_app_len (s t : string) : substring 0 (String.length s) (s ++ t) = s.
Proof. induction s as [|c s IH]; simpl; [destruct t; reflexivity|]. rewrite IH. reflexivity. Qed.

Lemma pct_06d_hundredths (x : Z) :
  (0 <= x < 1000000)%Z -> substring 0 2 (pct_06d x) = zfill (str_Z (x / 10000)) 2.
Proof.
  intro Hx. unfold pct_06d.
  rewrite zfill_str_Z by (simpl; lia).
  rewrite zfill_str_Z by (first [lia | split; [apply Z.div_pos; lia|];
                                    apply Z.div_lt_upper_bound; simpl; lia]).
  change 6%nat with (2 + 4)%nat. rewrite fixed_digits_split by lia.
  rewrite <- (fixed_digits_len 2 (x / 10 ^ Z.of_nat 4)) at 1.
  rewrite substring_app_len. reflexivity.
Qed.

Lemma fmt_6f_zero (x : Q) : x == 0 -> fmt_6f x = "0.000000".
Proof.
  intro Hx. unfold fmt_6f, round_half_even.
  assert (Hy : Qabs x * inject_Z 1000000 == 0) by (rewrite Hx; reflexivity).
  rewrite (Qfloor_comp _ _ Hy).
  change (Qfloor 0) with 0%Z.
  replace (Qlt_bool (Qabs x * inject_Z 1000000 - inject_Z 0) (1#2)) with true
    by (symmetry; apply Qlt_bool_iff; rewrite Hy; reflexivity).
  replace (Qlt_bool x 0) with false by (symmetry; apply Qlt_bool_false; rewrite Hx; apply Qle_refl).
  vm_compute. reflexivity.
Qed.

Lemma near_comm (n : Z) (a b : Q) :
  Qabs (inject_Z n - a * b) <= 1#2 -> Qabs (inject_Z n - b * a) <= 1#2.
Proof.
  intro H. assert (E : inject_Z n - b * a == inject_Z n - a * b) by ring.
  rewrite E. exact H.
Qed.

(** C8 (counterexample): an absent duration is rendered as "N/A" padded to
    eight characters, not as the string "N/A". *)
Lemma format_duration_na_padded :
  fst (format_duration None) = "N/A     " /\ fst (format_duration None) <> "N/A".
Proof. vm_compute. split; [reflexivity|discriminate]. Qed.

(** C8 (amended): [format_duration] renders an absent duration as "N/A"
    left-justified to eight characters, with the green tier; a duration
    below 1 s, a negative one clamped to 0, as the six-decimal rendering of
    its value rounded to the microsecond, green, so that every non-positive
    duration renders as "0.000000"; a duration in [1, 60000) as MM:SS.ff,
    the whole minutes, remaining seconds and hundredths of the duration
    rounded to the microsecond, yellow below 3 s and red otherwise; any
    larger duration as "<hours> h" with the whole hours, red. In particular
    -0.5 renders as "0.000000" (green) and 70000 as "19 h" (red). *)
Theorem format_duration_bands :
  (forall d, duration_band d (format_duration (Some d))) /\
  (forall d, format_duration (Some (- Qabs d)) = ("0.000000", "time_green")) /\
  format_duration None = ("N/A     ", "time_green") /\
  format_duration (Some (-1 # 2)) = ("0.000000", "time_green") /\
  format_duration (Some 70000) = ("19 h", "time_red").
Proof.
  split; [|split; [|vm_compute; repeat split]].
  2:{ intro d. unfold format_duration.
      replace (Qlt_bool (- Qabs d) 1) with true
        by (symmetry; apply Qlt_bool_iff; pose proof (Qabs_nonneg d); lra).
      destruct (Qlt_bool (- Qabs d) 0) eqn:E0; [vm_compute; reflexivity|].
      apply Qlt_bool_false in E0. pose proof (Qabs_nonneg d).
      rewrite fmt_6f_zero; [reflexivity|lra]. }
  intro d. unfold duration_band, format_duration.
  destruct (Qlt_bool d 1) eqn:E1.
  - apply Qlt_bool_iff in E1. left. cbn [fst snd]. split; [exact E1|]. split; [reflexivity|].
    set (d' := if Qlt_bool d 0 then 0 else d).
    assert (Hd' : 0 <= d').
    { subst d'. destruct (Qlt_bool d 0) eqn:E0; [apply Qle_refl|].
      apply Qlt_bool_false in E0. exact E0. }
    exists (round_half_even (Qabs d' * inject_Z 1000000)). split.
    + apply near_comm.
      pose proof (round_half_even_near (Qabs d' * inject_Z 1000000)) as Hn.
      assert (E : inject_Z (round_half_even (Qabs d' * inject_Z 1000000)) - d' * inject_Z 1000000
                  == inject_Z (round_half_even (Qabs d' * inject_Z 1000000))
                     - Qabs d' * inject_Z 1000000).
      { unfold Qminus. apply Qplus_comp; [reflexivity|]. apply Qopp_comp.
        apply Qmult_comp; [symmetry; apply Qabs_pos; exact Hd' | reflexivity]. }
      rewrite E. exact Hn.
    + unfold fmt_6f.
      replace (Qlt_bool d' 0) with false by (symmetry; apply Qlt_bool_false; exact Hd').
      reflexivity.
  - apply Qlt_bool_false in E1. right.
    destruct (Qlt_bool d 60000) eqn:E2.
    + apply Qlt_bool_iff in E2. left. cbn [fst snd].
      split; [split; assumption|]. split; [reflexivity|].
      set (us := round_half_even (d * inject_Z 1000000)).
      pose proof (round_half_even_near (d * inject_Z 1000000)) as Hn. fold us in Hn.
      exists us. split; [apply near_comm; exact Hn|].
      apply Qabs_Qle_condition in Hn.
      assert (Hus : (0 <= us <= 60000000000)%Z).
      { change (inject_Z 1000000) with (1000000 # 1) in Hn.
        assert (H1 : inject_Z (-1) < inject_Z us)
          by (change (inject_Z (-1)) with (-1 # 1); lra).
        assert (H2 : inject_Z us < inject_Z 60000000001)
          by (change (inject_Z 60000000001) with (60000000001 # 1); lra).
        rewrite <- Zlt_Qlt in H1, H2. lia. }
      unfold timedelta_of_seconds. fold us. cbn [td_seconds td_microseconds].
      rewrite (Z.mod_small (us / 1000000) 86400).
      2:{ split; [apply Z.div_pos; lia|]. apply Z.div_lt_upper_bound; lia. }
      rewrite pct_06d_hundredths by (apply Z.mod_pos_bound; lia).
      reflexivity.
    + apply Qlt_bool_false in E2. right. simpl.
      split; [exact E2|]. split; [reflexivity|].
      unfold py_int.
      replace (Qle_bool 0 (d / inject_Z 3600)) with true; [reflexivity|].
      symmetry. apply Qle_bool_iff. apply Qle_shift_div_l; [reflexivity|]. lra.
Qed.

(** ** Height-limited rendering (views.limit, views.screen) *)

Example limit_doctest :
  Views.limit ["line #0"; "line #1"; "line #2"] (Some 2%Z) = (["line #0"; "line #1"], Some 0%Z) /\
  Views.limit ["line #0"; "line #1"] (Some 3%Z) = (["line #0"; "line #1"], Some 1%Z) /\
  Views.limit ["row #0"; "row #1"; "row #2"] None = (["row #0"; "row #1"; "row #2"], None) /\
  Views.limit ["line #0"] (Some 10%Z) = (["line #0"], Some 9%Z).
Proof. vm_compute. repeat split. Qed.

(** A single view given a counter at [n >= 1] prints at most [n] lines. *)
Lemma limit_single_view_bounded (lines : list string) (n : Z) :
  (1 <= n)%Z -> (List.length (fst (Views.limit lines (Some n))) <= Z.to_nat n)%nat.
Proof.
  revert n. induction lines as [|l rest IH]; intros n Hn; simpl; [lia|].
  destruct (Z.eqb n 1) eqn:E; simpl; [lia|].
  apply Z.eqb_neq in E.
  specialize (IH (n - 1)%Z ltac:(lia)).
  destruct (Views.limit rest (Some (n - 1)%Z)) as [out c] eqn:Er. simpl in *. lia.
Qed.

(** C3 (code bug): on a terminal of height 2 the screen may print one line
    (height - 1), but a header without system information, the mode banner,
    the column header and a single one-line process row give four lines:
    the header's first line takes the counter to 1 and stops the header,
    and the later views find the counter below 1, where [next(counter) == 1]
    never holds again, so they are printed in full. *)
Theorem screen_exceeds_height :
  Views.screen 2 "title" "size" None "banner" "columns" [["row"]] =
    ["title"; "banner"; "columns"; "row"] /\
  (List.length (Views.screen 2 "title" "size" None "banner" "columns" [["row"]])
     > Z.to_nat (2 - 1))%nat.
Proof. vm_compute. split; [reflexivity|lia]. Qed.

(** ** Peak IOPS across cycles (ui.main) *)

(** C2 (code bug): ui.main sets [max_iops = 0] at the top of every cycle,
    so the value is [max(0, read_ops + write_ops)] of the current cycle
    only: a cycle with 3 + 2 operations followed by an all-zero cycle shows
    5, then 0. *)
Theorem max_iops_reset_each_cycle :
  run true ui_init [((3, 2)%Z, None); ((0, 0)%Z, None)] = Ok [5%Z; 0%Z].
Proof. vm_compute. reflexivity. Qed.

(** ** Snapshot diff (activities.update_processes_local) *)

Module ActivitiesProofs.
Import Activities.

Ltac close_rows :=
  let a := fresh "a" in
  let Ha := fresh "Ha" in
  intros a Ha;
  repeat rewrite in_app_iff in Ha;
  destruct Ha as [Ha | Ha]; [left; exact Ha | right];
  destruct Ha as [<- | []]; simpl; repeat split; reflexivity.

Lemma step_spec now gd processes st pid np st1 :
  step now gd processes st (pid, np) = Ok st1 ->
  match assoc_find pid processes with
  | Some old =>
      let dt := now (ticks st) - io_time (extras old) in
      let r := inject_Z (read_bytes (io_counters (extras np))
                         - read_bytes (io_counters (extras old))) / dt in
      let w := inject_Z (write_bytes (io_counters (extras np))
                         - write_bytes (io_counters (extras old))) / dt in
      ticks st1 = S (ticks st) /\
      read_bytes_delta st1 = read_bytes_delta st + r /\
      write_bytes_delta st1 = write_bytes_delta st + w /\
      (forall a, In a (procs st1) ->
         In a (procs st) \/ (ap_pid a = pid /\ ap_read a = r /\ ap_write a = w))
  | None =>
      ticks st1 = ticks st /\
      read_bytes_delta st1 = read_bytes_delta st /\
      write_bytes_delta st1 = write_bytes_delta st /\
      (forall a, In a (procs st1) ->
         In a (procs st) \/
         (ap_pid a = pid /\ ap_read a = read_delta (extras np) /\
          ap_write a = write_delta (extras np)))
  end.
Proof.
  unfold step. destruct (assoc_find pid processes) as [old|] eqn:F.
  - unfold update_existing.
    destruct (Qeq_bool (now (ticks st) - io_time (extras old)) 0); simpl;
      [discriminate|].
    destruct (psutil_proc (extras old)) as [h|];
      [destruct (ps_memory_percent h) as [m|];
       [destruct (ps_cpu_percent h) as [c|]|]|];
      intros H; injection H as <-; simpl;
      (split; [reflexivity|]); (split; [reflexivity|]); (split; [reflexivity|]);
      first [close_rows | intros a Ha; left; exact Ha].
  - simpl.
    destruct (psutil_proc (extras np)) as [h|];
      [destruct (ps_memory_percent h) as [m|];
       [destruct (ps_cpu_percent h) as [c|]|]|];
      intros H; injection H as <-; simpl;
      (split; [reflexivity|]); (split; [reflexivity|]); (split; [reflexivity|]);
      first [close_rows | intros a Ha; left; exact Ha].
Qed.
End ActivitiesProofs.

Import Activities.

Lemma rate_ok_cons processes x rates a :
  rate_ok processes rates a -> rate_ok processes (x :: rates) a.
Proof.
  unfold rate_ok. destruct (assoc_find (ap_pid a) processes); [|auto].
  intros H. right. exact H.
Qed.

Lemma loop_spec now gd processes items :
  forall st st', Forall fresh_sample items ->
  loop now gd processes items st = Ok st' ->
  (forall a, In a (procs st') ->
     In a (procs st) \/ rate_ok processes (prior_rates now processes (ticks st) items) a) /\
  read_bytes_delta st' ==
    read_bytes_delta st + sum_reads (prior_rates now processes (ticks st) items) /\
  write_bytes_delta st' ==
    write_bytes_delta st + sum_writes (prior_rates now processes (ticks st) items).
Proof.
  induction items as [|[pid np] rest IH]; intros st st' Hf H.
  - simpl in H. injection H as <-. simpl.
    split; [intros a Ha; left; exact Ha|]. split; ring.
  - cbn [loop] in H. destruct (step now gd processes st (pid, np)) as [st1|e] eqn:Es;
      cbn [bind] in H; [|discriminate].
    inversion Hf as [|? ? [Hr Hw] Hfr]; subst. simpl in Hr, Hw.
    pose proof (ActivitiesProofs.step_spec now gd processes st pid np st1 Es) as S.
    destruct (IH st1 st' Hfr H) as [Hrows [Hrb Hwb]].
    simpl. destruct (assoc_find pid processes) as [old|] eqn:F.
    + destruct S as [Ht [Hr1 [Hw1 Hrows1]]].
      rewrite Ht in Hrows, Hrb, Hwb.
      split; [|split].
      * intros a Ha. destruct (Hrows a Ha) as [Ha1 | Hok].
        -- destruct (Hrows1 a Ha1) as [Ha0 | [Hp [Hra Hwa]]]; [left; exact Ha0|].
           right. unfold rate_ok. rewrite Hp, F, Hra, Hwa. left. reflexivity.
        -- right. apply rate_ok_cons. exact Hok.
      * rewrite Hrb, Hr1. simpl. ring.
      * rewrite Hwb, Hw1. simpl. ring.
    + destruct S as [Ht [Hr1 [Hw1 Hrows1]]].
      rewrite Ht in Hrows, Hrb, Hwb.
      split; [|split].
      * intros a Ha. destruct (Hrows a Ha) as [Ha1 | Hok].
        -- destruct (Hrows1 a Ha1) as [Ha0 | [Hp [Hra Hwa]]]; [left; exact Ha0|].
           right. unfold rate_ok. rewrite Hp, F, Hra, Hwa, Hr, Hw. split; reflexivity.
        -- right. exact Hok.
      * rewrite Hrb, Hr1. reflexivity.
      * rewrite Hwb, Hw1. reflexivity.
Qed.

Lemma sys_get_proc_fresh raw : Forall fresh_sample (sys_get_proc raw).
Proof.
  induction raw as [|[pid p] rest IH]; simpl; constructor; [|exact IH].
  split; reflexivity.
Qed.

(** C1: on a successful run of [update_processes_local] over new samples
    built by [sys_get_proc], every row of a worker whose pid had a previous
    sample carries the rates (new bytes - old bytes) / (time.time() - the
    previous sample's timestamp) of [prior_rates], every row of a worker
    without one has zero rates, and the global byte-rate totals are the sums
    of the rates of the workers with a previous sample (those without one
    contribute nothing). *)
Theorem update_processes_local_rates (now : nat -> Q) (gd : Q -> Q)
    (processes raw : list (Z * Process)) (fs : Z)
    (rb wb : Q) (rc wc : Z) (ps : list Z) (rows : list ActivityProcess)
    (nm : list (Z * Process))
    (H : update_processes_local now gd processes (sys_get_proc raw) fs =
           Ok ((rb, wb, rc, wc), ps, rows, nm)) :
  (forall a, In a rows -> rate_ok processes (prior_rates now processes 0 (sys_get_proc raw)) a) /\
  rb == sum_reads (prior_rates now processes 0 (sys_get_proc raw)) /\
  wb == sum_writes (prior_rates now processes 0 (sys_get_proc raw)).
Proof.
  unfold update_processes_local in H.
  destruct (loop now gd processes (sys_get_proc raw) (mkLoop 0 0 [] [] (sys_get_proc raw) 0))
    as [st|e] eqn:L; cbn [bind] in H; [|discriminate].
  destruct (io_count (read_bytes_delta st) fs) as [r1|e]; cbn [bind] in H; [|discriminate].
  destruct (io_count (write_bytes_delta st) fs) as [w1|e]; cbn [bind] in H; [|discriminate].
  injection H as Hrb Hwb _ _ _ Hrows _. subst rb wb rows.
  destruct (loop_spec now gd processes (sys_get_proc raw) _ st (sys_get_proc_fresh raw) L)
    as [Hr [Hsr Hsw]].
  simpl in Hr, Hsr, Hsw.
  split; [|split].
  - intros a Ha. destruct (Hr a Ha) as [[] | Hok]. exact Hok.
  - rewrite Hsr. ring.
  - rewrite Hsw. ring.
Qed.

(** Worker 42 read 1000 -> 2000 bytes and wrote 500 -> 500 bytes over one
    second (timestamps 10 and 11): 1000 B/s read, 0 B/s written. *)
Lemma update_processes_local_rates_witness :
  update_processes_local (fun _ => 11) (fun d => d) [(42%Z, sample_proc 1000 500 10)]
    (sys_get_proc [(42%Z, sample_proc 2000 500 0)]) 4096 =
  Ok ((1000, 0, 0%Z, 0%Z), [42%Z],
      [mkActivityProcess 42 "pgbench" "pgbench" "postgres" "local" 0 0 1000 0
         "active" "SELECT 1" 0 false "N" false],
      [(42%Z, mkProcess 0 "active" "SELECT 1" "pgbench" "local" false "pgbench" "postgres"
                (mkExtras "N" 1000 0 (mkIO 2000 500) 11 None 0 0 false))]) /\
  ((forall a, In a [mkActivityProcess 42 "pgbench" "pgbench" "postgres" "local" 0 0 1000 0
                      "active" "SELECT 1" 0 false "N" false] ->
      rate_ok [(42%Z, sample_proc 1000 500 10)]
        (prior_rates (fun _ => 11) [(42%Z, sample_proc 1000 500 10)] 0
           (sys_get_proc [(42%Z, sample_proc 2000 500 0)])) a) /\
   1000 == sum_reads (prior_rates (fun _ => 11) [(42%Z, sample_proc 1000 500 10)] 0
                        (sys_get_proc [(42%Z, sample_proc 2000 500 0)])) /\
   0 == sum_writes (prior_rates (fun _ => 11) [(42%Z, sample_proc 1000 500 10)] 0
                      (sys_get_proc [(42%Z, sample_proc 2000 500 0)]))).
Proof.
  assert (H : update_processes_local (fun _ => 11) (fun d => d)
                [(42%Z, sample_proc 1000 500 10)]
                (sys_get_proc [(42%Z, sample_proc 2000 500 0)]) 4096 =
      Ok ((1000, 0, 0%Z, 0%Z), [42%Z],
          [mkActivityProcess 42 "pgbench" "pgbench" "postgres" "local" 0 0 1000 0
             "active" "SELECT 1" 0 false "N" false],
          [(42%Z, mkProcess 0 "active" "SELECT 1" "pgbench" "local" false "pgbench" "postgres"
                    (mkExtras "N" 1000 0 (mkIO 2000 500) 11 None 0 0 false))]))
    by (vm_compute; reflexivity).
  split; [exact H|].
  exact (update_processes_local_rates (fun _ => 11) (fun d => d)
           [(42%Z, sample_proc 1000 500 10)] [(42%Z, sample_proc 2000 500 0)] 4096
           1000 0 0%Z 0%Z [42%Z] _ _ H).
Defined.

Lemma io_count_spec (delta : Q) (fs c : Z) :
  (0 < fs)%Z -> io_count delta fs = Ok c ->
  c = (if Qlt_bool 0 delta then Qfloor (delta / inject_Z fs) else 0%Z).
Proof.
  intros Hfs H. unfold io_count in H.
  destruct (Qlt_bool 0 delta) eqn:E.
  - replace (Z.eqb fs 0) with false in H by (symmetry; apply Z.eqb_neq; lia).
    injection H as <-. apply Qlt_bool_iff in E.
    rewrite py_int_nonneg; [reflexivity|].
    apply Qle_shift_div_l.
    + assert (Hq : inject_Z 0 < inject_Z fs) by (rewrite <- Zlt_Qlt; exact Hfs).
      exact Hq.
    + rewrite Qmult_0_l. apply Qlt_le_weak. exact E.
  - injection H as <-. reflexivity.
Qed.

(** C4: with a positive block size, the read and write operation counts of
    [update_processes_local] are the floor of the global read / write
    byte-rate total divided by the block size when that total is strictly
    positive, and 0 otherwise; a read byte rate of 8192 B/s with block size
    4096 gives a read count of exactly 2. *)
Theorem update_processes_local_io_counts (now : nat -> Q) (gd : Q -> Q)
    (processes new_processes : list (Z * Process)) (fs : Z)
    (rb wb : Q) (rc wc : Z) (ps : list Z) (rows : list ActivityProcess)
    (nm : list (Z * Process))
    (Hfs : (0 < fs)%Z)
    (H : update_processes_local now gd processes new_processes fs =
           Ok ((rb, wb, rc, wc), ps, rows, nm)) :
  rc = (if Qlt_bool 0 rb then Qfloor (rb / inject_Z fs) else 0%Z) /\
  wc = (if Qlt_bool 0 wb then Qfloor (wb / inject_Z fs) else 0%Z) /\
  exists ps' rows' nm',
    update_processes_local (fun _ => 1) (fun d => d) [(7%Z, sample_proc 0 0 0)]
      (sys_get_proc [(7%Z, sample_proc 8192 0 0)]) 4096 =
    Ok ((8192, 0, 2%Z, 0%Z), ps', rows', nm').
Proof.
  unfold update_processes_local in H.
  destruct (loop now gd processes new_processes (mkLoop 0 0 [] [] new_processes 0))
    as [st|e]; cbn [bind] in H; [|discriminate].
  destruct (io_count (read_bytes_delta st) fs) as [r1|e] eqn:Er;
    cbn [bind] in H; [|discriminate].
  destruct (io_count (write_bytes_delta st) fs) as [w1|e] eqn:Ew;
    cbn [bind] in H; [|discriminate].
  injection H as Hrb Hwb Hrc Hwc _ _ _. subst rb wb rc wc.
  split; [apply io_count_spec; assumption|].
  split; [apply io_count_spec; assumption|].
  do 3 eexists. vm_compute. reflexivity.
Qed.

Lemma update_processes_local_io_counts_witness :
  (0 < 4096)%Z /\
  (2%Z = (if Qlt_bool 0 8192 then Qfloor (8192 / inject_Z 4096) else 0%Z) /\
   0%Z = (if Qlt_bool 0 0 then Qfloor (0 / inject_Z 4096) else 0%Z) /\
   exists ps' rows' nm',
     update_processes_local (fun _ => 1) (fun d => d) [(7%Z, sample_proc 0 0 0)]
       (sys_get_proc [(7%Z, sample_proc 8192 0 0)]) 4096 =
     Ok ((8192, 0, 2%Z, 0%Z), ps', rows', nm')).
Proof.
  assert (Hfs : (0 < 4096)%Z) by lia.
  split; [exact Hfs|].
  exact (update_processes_local_io_counts (fun _ => 1) (fun d => d)
           [(7%Z, sample_proc 0 0 0)] (sys_get_proc [(7%Z, sample_proc 8192 0 0)]) 4096
           8192 0 2%Z 0%Z [7%Z] _ _ Hfs (eq_refl _)).
Defined.

(** ** Flag.from_options *)

(** X1: the flag built from the command line options has each column bit set
    exactly when its switch is off; the CPU, MEM, READ and WRITE bits further
    need a local server, and the IOWAIT bit (which has no switch) is set
    exactly for a local server. RELATION, TYPE and MODE are always set. *)
Theorem from_options_bits (is_local noappname noclient nocpu nodb nomem nopid noread
    notime nouser nowait nowrite : bool) :
  Flag.from_options is_local noappname noclient nocpu nodb nomem nopid noread
    notime nouser nowait nowrite =
  ((if nodb then 0 else Flag.DATABASE) + (if noappname then 0 else Flag.APPNAME)
   + (if noclient then 0 else Flag.CLIENT) + (if nouser then 0 else Flag.USER)
   + (if is_local && negb nocpu then Flag.CPU else 0)
   + (if is_local && negb nomem then Flag.MEM else 0)
   + (if is_local && negb noread then Flag.READ else 0)
   + (if is_local && negb nowrite then Flag.WRITE else 0)
   + (if notime then 0 else Flag.TIME) + (if nowait then 0 else Flag.WAIT)
   + Flag.RELATION + Flag.TYPE + Flag.MODE
   + (if is_local then Flag.IOWAIT else 0) + (if nopid then 0 else Flag.PID))%Z.
Proof.
  destruct is_local, noappname, noclient, nocpu, nodb, nomem, nopid, noread,
    notime, nouser, nowait, nowrite; vm_compute; reflexivity.
Qed.

(** ** locktype *)

Lemma LockType_name_inj (t u : LockType) : LockType_name t = LockType_name u -> t = u.
Proof. destruct t, u; simpl; congruence. Qed.

(** X2: [locktype] maps a name to the lock type of that name: it returns
    [Ok t] exactly when [str(t)] is the given string. *)
Theorem locktype_ok_iff (s : string) (t : LockType) :
  locktype s = Ok t <-> LockType_name t = s.
Proof.
  unfold locktype. split.
  - destruct (find _ _) as [u|] eqn:E; intro H; [|discriminate].
    injection H as <-. apply find_some in E as [_ E]. apply String.eqb_eq, E.
  - intros <-. destruct (find (fun u => String.eqb (LockType_name u) (LockType_name t))
                          LockType_members) as [u|] eqn:E.
    + apply find_some in E as [_ E]. apply String.eqb_eq, LockType_name_inj in E.
      now subst.
    + exfalso. assert (Hin : In t LockType_members) by (destruct t; simpl; tauto).
      apply (find_none _ _ E) in Hin. rewrite String.eqb_refl in Hin. discriminate.
Qed.

(** X3: any string that names no lock type makes [locktype] raise the
    [ValueError] "invalid lock type <repr(value)>", and this is the only
    error it raises. *)
Theorem locktype_invalid (s : string) (e : exn) :
  locktype s = Raise e <->
  (forall t, LockType_name t <> s) /\
  e = ValueError (PStr ("invalid lock type " ++ py_repr s)).
Proof.
  unfold locktype. split.
  - destruct (find _ _) as [u|] eqn:E; intro H; [discriminate|].
    injection H as <-. split; [|reflexivity].
    intros t Ht. assert (Hin : In t LockType_members) by (destruct t; simpl; tauto).
    apply (find_none _ _ E) in Hin. rewrite Ht, String.eqb_refl in Hin. discriminate.
  - intros [Hn ->]. destruct (find _ _) as [u|] eqn:E; [|reflexivity].
    apply find_some in E as [_ E]. apply String.eqb_eq in E. exfalso. exact (Hn u E).
Qed.

(** "a'b" is no lock type; its [repr] is double-quoted. *)
Lemma locktype_invalid_witness :
  (forall t, LockType_name t <> "a'b") /\
  py_repr "a'b" = String "034"%char ("a'b" ++ String "034"%char EmptyString) /\
  locktype "a'b" =
    Raise (ValueError (PStr ("invalid lock type " ++
                             String "034"%char ("a'b" ++ String "034"%char EmptyString)))).
Proof.
  assert (Hn : forall t, LockType_name t <> "a'b") by (destruct t; discriminate).
  assert (Hr : py_repr "a'b" = String "034"%char ("a'b" ++ String "034"%char EmptyString))
    by reflexivity.
  split; [exact Hn|]. split; [exact Hr|].
  rewrite <- Hr.
  apply (proj2 (locktype_invalid "a'b" _)). split; [exact Hn|reflexivity].
Defined.

(** ** activities.sorted *)

Section StableSortProofs.
Context {A : Type} (f : A -> Q).

Lemma insert_by_perm (x : A) (l : list A) : Permutation (x :: l) (insert_by f x l).
Proof.
  induction l as [|y r IH]; simpl; [reflexivity|].
  destruct (Qlt_bool (f y) (f x)); [|reflexivity].
  rewrite perm_swap. constructor. exact IH.
Qed.

Lemma stable_sort_perm (l : list A) : Permutation l (stable_sort f l).
Proof.
  induction l as [|x r IH]; simpl; [constructor|].
  rewrite <- insert_by_perm. constructor. exact IH.
Qed.

Lemma insert_by_hd (x y : A) (l : list A) :
  f y <= f x -> HdRel (key_le f) y l -> HdRel (key_le f) y (insert_by f x l).
Proof.
  intros Hyx Hh. destruct l as [|z r]; simpl.
  - constructor. exact Hyx.
  - destruct (Qlt_bool (f z) (f x)); constructor; [inversion Hh; assumption|exact Hyx].
Qed.

Lemma insert_by_sorted (x : A) (l : list A) :
  Sorted (key_le f) l -> Sorted (key_le f) (insert_by f x l).
Proof.
  induction l as [|y r IH]; intro Hs; simpl.
  - repeat constructor.
  - inversion Hs as [|? ? Hr Hh]; subst.
    destruct (Qlt_bool (f y) (f x)) eqn:E.
    + apply Qlt_bool_iff in E. constructor; [exact (IH Hr)|].
      apply insert_by_hd; [apply Qlt_le_weak, E|exact Hh].
    + apply Qlt_bool_false in E. constructor; [exact Hs|]. constructor. exact E.
Qed.

Lemma stable_sort_sorted (l : list A) : Sorted (key_le f) (stable_sort f l).
Proof.
  induction l as [|x r IH]; simpl; [constructor|]. apply insert_by_sorted, IH.
Qed.

Lemma StronglySorted_snoc (R : A -> A -> Prop) (l : list A) (x : A) :
  StronglySorted R l -> Forall (fun y => R y x) l -> StronglySorted R (l ++ [x]).
Proof.
  induction l as [|y r IH]; intros Hs Hf; simpl.
  - repeat constructor.
  - inversion Hs; subst. inversion Hf; subst. constructor.
    + apply IH; assumption.
    + apply Forall_app. split; [assumption|]. repeat constructor. assumption.
Qed.

Lemma StronglySorted_rev (R : A -> A -> Prop) (l : list A) :
  StronglySorted R l -> StronglySorted (fun a b => R b a) (rev l).
Proof.
  induction l as [|y r IH]; intro Hs; simpl; [constructor|].
  inversion Hs; subst. apply StronglySorted_snoc.
  - apply IH. assumption.
  - apply Forall_rev. assumption.
Qed.

Lemma key_le_trans : Relations_1.Transitive (key_le f).
Proof. intros a b c H1 H2. unfold key_le in *. apply (Qle_trans _ _ _ H1 H2). Qed.

Lemma filter_rev' (P : A -> bool) (l : list A) : filter P (rev l) = rev (filter P l).
Proof.
  induction l as [|y r IH]; simpl; [reflexivity|].
  rewrite filter_app, IH. simpl. destruct (P y); simpl; [reflexivity|].
  apply app_nil_r.
Qed.

Lemma insert_by_filter (q : Q) (x : A) (l : list A) :
  filter (fun p => Qeq_bool (f p) q) (insert_by f x l) =
  filter (fun p => Qeq_bool (f p) q) (x :: l).
Proof.
  induction l as [|y r IH]; simpl; [reflexivity|].
  destruct (Qlt_bool (f y) (f x)) eqn:E; [|reflexivity].
  apply Qlt_bool_iff in E. simpl. rewrite IH. simpl.
  destruct (Qeq_bool (f x) q) eqn:Ex, (Qeq_bool (f y) q) eqn:Ey; try reflexivity.
  apply Qeq_bool_iff in Ex, Ey. exfalso. rewrite Ex, Ey in E. exact (Qlt_irrefl _ E).
Qed.

Lemma stable_sort_filter (q : Q) (l : list A) :
  filter (fun p => Qeq_bool (f p) q) (stable_sort f l) =
  filter (fun p => Qeq_bool (f p) q) l.
Proof.
  induction l as [|x r IH]; simpl; [reflexivity|].
  rewrite insert_by_filter. simpl. rewrite IH. reflexivity.
Qed.
End StableSortProofs.

(** X4: [activities.sorted] returns a permutation of its input, ordered by
    the sort key's column: ascending, or descending when [reverse] is set. *)
Theorem activities_sorted_ordered (l : list Activities.ActivityProcess) (key : SortKey)
    (reverse : bool) :
  Permutation l (activities_sorted l key reverse) /\
  Sorted (fun a b => if reverse then sort_value key b <= sort_value key a
                     else sort_value key a <= sort_value key b)
    (activities_sorted l key reverse).
Proof.
  unfold activities_sorted, py_sorted. destruct reverse.
  - split.
    + rewrite <- (Permutation_rev (stable_sort _ _)), <- stable_sort_perm.
      apply Permutation_rev.
    + apply StronglySorted_Sorted.
      apply (StronglySorted_rev (fun a b => sort_value key a <= sort_value key b)).
      apply Sorted_StronglySorted; [apply key_le_trans|apply stable_sort_sorted].
  - split; [apply stable_sort_perm|apply stable_sort_sorted].
Qed.

(** X5: [activities.sorted] is stable in both directions: the processes whose
    sort key has a given value appear in the output in their input order. *)
Theorem activities_sorted_stable (l : list Activities.ActivityProcess) (key : SortKey)
    (reverse : bool) (q : Q) :
  filter (fun p => Qeq_bool (sort_value key p) q) (activities_sorted l key reverse) =
  filter (fun p => Qeq_bool (sort_value key p) q) l.
Proof.
  unfold activities_sorted, py_sorted. destruct reverse.
  - rewrite filter_rev', stable_sort_filter, filter_rev', rev_involutive. reflexivity.
  - apply stable_sort_filter.
Qed.

(** ** UI.make *)

Lemma count_char_app (c : ascii) (s t : string) :
  count_char c (s ++ t) = (count_char c s + count_char c t)%nat.
Proof.
  induction s as [|x s IH]; simpl; [reflexivity|].
  destruct (Ascii.eqb x c); rewrite IH; reflexivity.
Qed.

Lemma digit_char_not_percent (d : Z) : (0 <= d < 10)%Z -> Ascii.eqb (digit_char d) "%" = false.
Proof.
  intro H. assert (d = 0 \/ d = 1 \/ d = 2 \/ d = 3 \/ d = 4 \/ d = 5 \/ d = 6 \/ d = 7
                   \/ d = 8 \/ d = 9)%Z as Hd by lia.
  repeat destruct Hd as [->|Hd]; try reflexivity. subst. reflexivity.
Qed.

Lemma digits_go_no_percent (fuel : nat) (n : Z) (acc : string) :
  (0 <= n)%Z -> count_char "%" (digits_go fuel n acc) = count_char "%" acc.
Proof.
  revert n acc. induction fuel as [|f IH]; intros n acc Hn; cbn [digits_go]; [reflexivity|].
  destruct (Z.ltb n 10) eqn:E.
  - apply Z.ltb_lt in E. cbn [count_char].
    rewrite digit_char_not_percent by lia. reflexivity.
  - apply Z.ltb_ge in E. rewrite IH by (apply Z.div_pos; lia). cbn [count_char].
    rewrite digit_char_not_percent by (apply Z.mod_pos_bound; lia). reflexivity.
Qed.

Lemma str_Z_no_percent (n : Z) : count_char "%" (str_Z n) = 0%nat.
Proof.
  unfold str_Z. destruct (Z.ltb n 0).
  - change ("-" ++ ?x) with (String "-" x). cbn [count_char Ascii.eqb].
    apply digits_go_no_percent. lia.
  - apply digits_go_no_percent. lia.
Qed.

Lemma entries_templates (L : Z) :
  Forall (fun e => count_char "%" (UI.e_template e) = 1%nat) (UI.entries L).
Proof.
  repeat constructor.
  change (count_char "%" ("%-" ++ str_Z L ++ "s ") = 1%nat).
  rewrite !count_char_app, str_Z_no_percent. reflexivity.
Qed.

Lemma entries_keys (L : Z) :
  map UI.e_key (UI.entries L) =
  ["appname"; "client"; "cpu"; "database"; "iowait"; "mem"; "mode"; "pid"; "query";
   "read"; "relation"; "state"; "time"; "type"; "user"; "wait"; "write"].
Proof. reflexivity. Qed.

Lemma entries_keys_nodup (L : Z) : NoDup (map UI.e_key (UI.entries L)).
Proof. rewrite entries_keys. repeat constructor; simpl; intuition discriminate. Qed.

Lemma add_columns_done (flag : Z) (pc : list (string * Column)) (es : list UI.entry) :
  NoDup (map fst pc ++ map UI.e_key es) ->
  Forall (fun e => count_char "%" (UI.e_template e) = 1%nat) es ->
  UI.add_columns flag pc es =
  UI.Done (pc ++ map UI.entry_column (filter (fun e => UI.guard flag (UI.e_flag e)) es))%list.
Proof.
  revert pc. induction es as [|e rest IH]; intros pc Hnd Ht; simpl.
  - rewrite app_nil_r. reflexivity.
  - inversion Ht as [|? ? He Hrest]; subst.
    destruct (UI.guard flag (UI.e_flag e)).
    + unfold UI.add_column.
      replace (existsb (fun kc => String.eqb (fst kc) (UI.e_key e)) pc) with false.
      2:{ symmetry. apply not_true_iff_false. intro Hex.
          apply existsb_exists in Hex as [[k c] [Hin Hk]]. simpl in Hk.
          apply String.eqb_eq in Hk. subst k.
          apply NoDup_remove_2 in Hnd. apply Hnd. apply in_or_app. left.
          apply (in_map fst) in Hin. exact Hin. }
      unfold make_Column. rewrite He. simpl.
      rewrite IH; [| |exact Hrest].
      * rewrite <- app_assoc. reflexivity.
      * rewrite map_app, <- app_assoc. exact Hnd.
    + apply IH; [|exact Hrest]. apply NoDup_remove_1 in Hnd. exact Hnd.
Qed.

Lemma make_possible_columns (flag L : Z) :
  UI.add_columns flag [] (UI.entries L) =
  UI.Done (map UI.entry_column (filter (fun e => UI.guard flag (UI.e_flag e)) (UI.entries L))).
Proof.
  apply add_columns_done; [apply entries_keys_nodup|apply entries_templates].
Qed.

Lemma dict_get_absent (g : UI.entry -> bool) (es : list UI.entry) (k : string) :
  ~ In k (map UI.e_key es) -> UI.dict_get (map UI.entry_column (filter g es)) k = None.
Proof.
  induction es as [|e rest IH]; intro Hn; simpl; [reflexivity|].
  simpl in Hn. destruct (g e); simpl.
  - destruct (String.eqb (UI.e_key e) k) eqn:E.
    + apply String.eqb_eq in E. tauto.
    + apply IH. tauto.
  - apply IH. tauto.
Qed.

Lemma dict_get_filter (g : UI.entry -> bool) (es : list UI.entry) (k : string) :
  NoDup (map UI.e_key es) ->
  UI.dict_get (map UI.entry_column (filter g es)) k =
  match find (fun e => String.eqb (UI.e_key e) k) es with
  | Some e => if g e then Some (snd (UI.entry_column e)) else None
  | None => None
  end.
Proof.
  induction es as [|e rest IH]; intro Hnd; simpl; [reflexivity|].
  inversion Hnd as [|? ? Hn Hnd']; subst.
  destruct (g e) eqn:Eg; simpl.
  - destruct (String.eqb (UI.e_key e) k) eqn:E; [rewrite Eg; reflexivity|].
    apply IH, Hnd'.
  - destruct (String.eqb (UI.e_key e) k) eqn:E.
    + rewrite Eg. apply String.eqb_eq in E. subst k. apply dict_get_absent, Hn.
    + apply IH, Hnd'.
Qed.

Lemma concat_lookup_keys (get : string -> option Column) (p : string -> bool)
    (ks : list string) :
  Forall (fun k => match get k with
                   | Some c => p k = true /\ col_key c = k
                   | None => p k = false
                   end) ks ->
  map col_key (List.concat (map (fun k => match get k with Some c => [c] | None => [] end) ks))
  = filter p ks.
Proof.
  induction ks as [|k rest IH]; intro H; simpl; [reflexivity|].
  inversion H as [|? ? Hk Hrest]; subst.
  destruct (get k) as [c|].
  - destruct Hk as [-> <-]. simpl. f_equal. apply IH, Hrest.
  - rewrite Hk. apply IH, Hrest.
Qed.

Lemma make_dict_get (flag L : Z) (k : string) :
  UI.dict_get (map UI.entry_column (filter (fun e => UI.guard flag (UI.e_flag e)) (UI.entries L))) k =
  match find (fun e => String.eqb (UI.e_key e) k) (UI.entries L) with
  | Some e => if UI.guard flag (UI.e_flag e) then Some (snd (UI.entry_column e)) else None
  | None => None
  end.
Proof. apply dict_get_filter, entries_keys_nodup. Qed.

Lemma make_key_lookup (flag L : Z) (qm : QueryMode) (k : string) :
  In k (UI.columns_key_by_querymode qm) ->
  match UI.dict_get (map UI.entry_column
          (filter (fun e => UI.guard flag (UI.e_flag e)) (UI.entries L))) k with
  | Some c => UI.guard flag (UI.column_flag k) = true /\ col_key c = k
  | None => UI.guard flag (UI.column_flag k) = false
  end.
Proof.
  rewrite make_dict_get. intro Hk.
  destruct qm; cbn [UI.columns_key_by_querymode In] in Hk;
    repeat destruct Hk as [<-|Hk]; try contradiction;
    cbn [find UI.entries UI.e_key String.eqb Ascii.eqb Bool.eqb andb UI.column_flag];
    cbn [UI.e_flag UI.guard UI.entry_column snd col_key];
    try (match goal with |- context [Flag.has flag ?b] => destruct (Flag.has flag b) end);
    auto.
Qed.

Lemma make_columns_keys (flag L : Z) (qm : QueryMode) :
  map col_key (UI.make_columns_for
    (map UI.entry_column (filter (fun e => UI.guard flag (UI.e_flag e)) (UI.entries L))) qm) =
  filter (fun k => UI.guard flag (UI.column_flag k)) (UI.columns_key_by_querymode qm).
Proof.
  unfold UI.make_columns_for. apply concat_lookup_keys.
  apply Forall_forall. intros k Hk. apply (make_key_lookup flag L qm k Hk).
Qed.

(** X6: [UI.make] never raises nor fails its [assert], whatever the flag and
    the database column width; in every query mode the UI lists the columns
    of that mode's key list, in that order, keeping ["state"], ["query"]
    and each other key whose flag bit is set in [flag]. *)
Theorem make_columns (flag max_db_length : Z) (qm : QueryMode) :
  exists ui, UI.make flag max_db_length qm = UI.Done ui /\
    UI.flag ui = flag /\ UI.query_mode ui = qm /\
    forall qm', map col_key (UI.columns_by_querymode ui qm') =
                filter (fun k => UI.guard flag (UI.column_flag k))
                  (UI.columns_key_by_querymode qm').
Proof.
  unfold UI.make. rewrite make_possible_columns.
  eexists. split; [reflexivity|]. split; [reflexivity|]. split; [reflexivity|].
  intro qm'. apply make_columns_keys.
Qed.

Lemma find_key_none (cols : list Column) (k : string) :
  find (fun c => String.eqb (col_key c) k) cols = None <-> ~ In k (map col_key cols).
Proof.
  induction cols as [|c rest IH]; simpl; [tauto|].
  destruct (String.eqb (col_key c) k) eqn:E.
  - apply String.eqb_eq in E. split; [discriminate|]. intro H. exfalso. apply H. left. exact E.
  - apply String.eqb_neq in E. rewrite IH. split; intros H H'; apply H;
      [destruct H' as [H'|H']; [contradiction|exact H']|right; exact H'].
Qed.

(** X7: on a UI built by [UI.make], [UI.column(key)] returns the column of
    that key when [key] is one of the columns the query mode shows, and
    raises [ValueError(key)] exactly when it is not. *)
Theorem make_column_lookup (flag max_db_length : Z) (qm : QueryMode) (ui : UI.UI) (k : string)
    (H : UI.make flag max_db_length qm = UI.Done ui) :
  (forall c, UI.column ui k = Ok c -> col_key c = k) /\
  (UI.column ui k = Raise (ValueError (PStr k)) <->
   ~ In k (filter (fun k => UI.guard flag (UI.column_flag k)) (UI.columns_key_by_querymode qm))) /\
  (In k (filter (fun k => UI.guard flag (UI.column_flag k)) (UI.columns_key_by_querymode qm)) ->
   exists c, UI.column ui k = Ok c).
Proof.
  unfold UI.make in H. rewrite make_possible_columns in H.
  pose proof (make_columns_keys flag max_db_length qm) as Hk.
  set (pc := map UI.entry_column _) in H, Hk. clearbody pc.
  injection H as <-.
  unfold UI.column, UI.columns. cbn [UI.columns_by_querymode UI.query_mode].
  rewrite <- Hk, <- find_key_none.
  destruct (find _ _) as [c|] eqn:E.
  - split; [intros c' Hc; injection Hc as <-; apply find_some in E as [_ E];
            apply String.eqb_eq, E|].
    split; [split; [discriminate|intro H; discriminate H]|].
    intros _. exists c. reflexivity.
  - split; [intros c' Hc; discriminate|]. split; [tauto|].
    intro Hn. apply find_key_none in E. contradiction.
Qed.

Lemma make_column_lookup_witness :
  UI.make 32767 16 QM_activities = UI.Done
    (UI.mkUI (UI.make_columns_for (map UI.entry_column
       (filter (fun e => UI.guard 32767 (UI.e_flag e)) (UI.entries 16))))
       32767 0 DM_query QDM_wrap_noindent SortKey_default QM_activities 2 false) /\
  UI.column (UI.mkUI (UI.make_columns_for (map UI.entry_column
       (filter (fun e => UI.guard 32767 (UI.e_flag e)) (UI.entries 16))))
       32767 0 DM_query QDM_wrap_noindent SortKey_default QM_activities 2 false) "gloups"
    = Raise (ValueError (PStr "gloups")).
Proof.
  assert (H : UI.make 32767 16 QM_activities = UI.Done
    (UI.mkUI (UI.make_columns_for (map UI.entry_column
       (filter (fun e => UI.guard 32767 (UI.e_flag e)) (UI.entries 16))))
       32767 0 DM_query QDM_wrap_noindent SortKey_default QM_activities 2 false))
    by (unfold UI.make; rewrite make_possible_columns; reflexivity).
  split; [exact H|].
  apply (proj2 (proj1 (proj2 (make_column_lookup 32767 16 QM_activities _ "gloups" H)))).
  vm_compute. intuition discriminate.
Defined.

Lemma dict_get_in (d : list (string * Column)) (k : string) (c : Column) :
  UI.dict_get d k = Some c -> In (k, c) d.
Proof.
  induction d as [|[k' c'] rest IH]; simpl; [discriminate|].
  destruct (String.eqb k' k) eqn:E.
  - intro H. injection H as <-. apply String.eqb_eq in E. subst. left. reflexivity.
  - intro H. right. apply IH, H.
Qed.

Lemma make_columns_from_entries (flag L : Z) (qm : QueryMode) (ui : UI.UI) (qm' : QueryMode)
    (c : Column) :
  UI.make flag L qm = UI.Done ui -> In c (UI.columns_by_querymode ui qm') ->
  exists e, In e (UI.entries L) /\ c = snd (UI.entry_column e).
Proof.
  unfold UI.make. rewrite make_possible_columns. intro H.
  assert (Hpc : forall e, In e (filter (fun e => UI.guard flag (UI.e_flag e)) (UI.entries L)) ->
                In e (UI.entries L)) by (intros e0 He0; apply filter_In in He0; apply He0).
  set (es := filter _ (UI.entries L)) in H, Hpc. clearbody es.
  injection H as <-.
  cbn [UI.columns_by_querymode]. unfold UI.make_columns_for.
  intro Hin. apply in_concat in Hin as [l [Hl Hc]].
  apply in_map_iff in Hl as [k [Hk _]]. subst l.
  destruct (UI.dict_get _ k) as [c'|] eqn:E; [|contradiction].
  destruct Hc as [<-|[]]. apply dict_get_in in E.
  apply in_map_iff in E as [e [He Hin]].
  exists e. split; [exact (Hpc e Hin)|]. rewrite He. reflexivity.
Qed.

(** X8: no column of a UI built by [UI.make] carries the [write] sort key
    (the ["write"] column is added without one), so [title_color] of every
    column is ["green"] when sorting by write; the header never highlights
    the column the rows are sorted by in that case. *)
Theorem make_no_write_sort_key (flag max_db_length : Z) (qm : QueryMode) (ui : UI.UI)
    (qm' : QueryMode) (c : Column)
    (H : UI.make flag max_db_length qm = UI.Done ui)
    (Hin : In c (UI.columns_by_querymode ui qm')) :
  col_sort_key c <> Some SK_write /\ title_color c SK_write = "green".
Proof.
  destruct (make_columns_from_entries _ _ _ _ _ _ H Hin) as [e [He ->]].
  simpl in He. repeat destruct He as [<-|He]; try contradiction;
    cbn; split; congruence.
Qed.

Lemma make_no_write_sort_key_witness :
  UI.make 32767 16 QM_activities = UI.Done
    (UI.mkUI (UI.make_columns_for (map UI.entry_column
       (filter (fun e => UI.guard 32767 (UI.e_flag e)) (UI.entries 16))))
       32767 0 DM_query QDM_wrap_noindent SortKey_default QM_activities 2 false) /\
  In (mkColumn "write" "WRITE/s" "%8s " false None None)
    (UI.make_columns_for (map UI.entry_column
       (filter (fun e => UI.guard 32767 (UI.e_flag e)) (UI.entries 16))) QM_activities) /\
  (None <> Some SK_write /\
   title_color (mkColumn "write" "WRITE/s" "%8s " false None None) SK_write = "green").
Proof.
  assert (H : UI.make 32767 16 QM_activities = UI.Done
    (UI.mkUI (UI.make_columns_for (map UI.entry_column
       (filter (fun e => UI.guard 32767 (UI.e_flag e)) (UI.entries 16))))
       32767 0 DM_query QDM_wrap_noindent SortKey_default QM_activities 2 false))
    by (unfold UI.make; rewrite make_possible_columns; reflexivity).
  assert (Hin : In (mkColumn "write" "WRITE/s" "%8s " false None None)
    (UI.make_columns_for (map UI.entry_column
       (filter (fun e => UI.guard 32767 (UI.e_flag e)) (UI.entries 16))) QM_activities))
    by (vm_compute; tauto).
  split; [exact H|]. split; [exact Hin|].
  exact (make_no_write_sort_key 32767 16 QM_activities _ QM_activities _ H Hin).
Defined.

Lemma ljust_go_len (k : nat) : String.length (ljust_go k) = k.
Proof. induction k as [|k IH]; simpl; [reflexivity|]. rewrite IH. reflexivity. Qed.

Lemma ljust_len (s : string) (w : nat) :
  String.length (ljust s w) = Nat.max w (String.length s).
Proof. unfold ljust. rewrite slen_app, ljust_go_len. lia. Qed.

Lemma rjust_len (s : string) (w : nat) :
  String.length (rjust s w) = Nat.max w (String.length s).
Proof. unfold rjust. rewrite slen_app, ljust_go_len. lia. Qed.

Lemma digits_go_app (fuel : nat) (n : Z) (acc t : string) :
  (digits_go fuel n acc ++ t = digits_go fuel n (acc ++ t))%string.
Proof.
  revert n acc. induction fuel as [|f IH]; intros n acc; cbn [digits_go]; [reflexivity|].
  destruct (Z.ltb n 10); [reflexivity|]. apply IH.
Qed.

Lemma digit_char_cases (d : Z) (P : ascii -> Prop) :
  (0 <= d < 10)%Z ->
  P "0"%char -> P "1"%char -> P "2"%char -> P "3"%char -> P "4"%char ->
  P "5"%char -> P "6"%char -> P "7"%char -> P "8"%char -> P "9"%char ->
  P (digit_char d).
Proof.
  intros H H0 H1 H2 H3 H4 H5 H6 H7 H8 H9.
  assert (d = 0 \/ d = 1 \/ d = 2 \/ d = 3 \/ d = 4 \/ d = 5 \/ d = 6 \/ d = 7
          \/ d = 8 \/ d = 9)%Z as Hd by lia.
  repeat destruct Hd as [->|Hd]; try assumption. subst. assumption.
Qed.

Lemma ascii_digit_char (d : Z) : (0 <= d < 10)%Z -> ascii_digit (digit_char d) = Some (Z.to_nat d).
Proof.
  intro H. assert (d = 0 \/ d = 1 \/ d = 2 \/ d = 3 \/ d = 4 \/ d = 5 \/ d = 6 \/ d = 7
                   \/ d = 8 \/ d = 9)%Z as Hd by lia.
  repeat destruct Hd as [->|Hd]; try reflexivity. subst. reflexivity.
Qed.

Lemma take_flags_digit (d : Z) (s : string) (b : bool) :
  (0 <= d < 10)%Z -> take_flags (String (digit_char d) s) b = (b, String (digit_char d) s).
Proof.
  intro H. apply (digit_char_cases d (fun c => take_flags (String c s) b = (b, String c s)) H);
    reflexivity.
Qed.

Lemma take_flags_digits_go (fuel : nat) (n : Z) (acc : string) (b : bool) :
  (0 <= n)%Z -> take_flags acc b = (b, acc) ->
  take_flags (digits_go fuel n acc) b = (b, digits_go fuel n acc).
Proof.
  revert n acc. induction fuel as [|f IH]; intros n acc Hn Hacc; cbn [digits_go]; [exact Hacc|].
  destruct (Z.ltb n 10) eqn:E.
  - apply Z.ltb_lt in E. apply take_flags_digit. lia.
  - apply Z.ltb_ge in E. apply IH; [apply Z.div_pos; lia|].
    apply take_flags_digit, Z.mod_pos_bound. lia.
Qed.

Lemma take_width_digits_go (fuel : nat) (n : Z) (acc : string) (a : nat) :
  (0 <= n < 10 ^ Z.of_nat fuel)%Z ->
  exists d, take_width (digits_go fuel n acc) a = take_width acc (a * 10 ^ d + Z.to_nat n)%nat.
Proof.
  revert n acc a. induction fuel as [|f IH]; intros n acc a Hn; cbn [digits_go].
  - exists 0%nat. simpl in Hn. replace n with 0%Z by lia. f_equal; simpl; lia.
  - destruct (Z.ltb n 10) eqn:E.
    + apply Z.ltb_lt in E. exists 1%nat. cbn [take_width].
      rewrite ascii_digit_char by lia. f_equal; simpl; lia.
    + apply Z.ltb_ge in E.
      assert (Hd : (0 <= n / 10 < 10 ^ Z.of_nat f)%Z).
      { split; [apply Z.div_pos; lia|].
        rewrite Nat2Z.inj_succ, Z.pow_succ_r in Hn by lia.
        apply Z.div_lt_upper_bound; lia. }
      destruct (IH (n / 10)%Z (String (digit_char (n mod 10)) acc) a Hd) as [d Hd'].
      exists (S d). rewrite Hd'. cbn [take_width].
      rewrite ascii_digit_char by (apply Z.mod_pos_bound; lia). f_equal.
      assert (Hnm : Z.to_nat n = (Z.to_nat (n / 10) * 10 + Z.to_nat (n mod 10))%nat).
      { pose proof (Z.div_mod n 10 ltac:(lia)). pose proof (Z.mod_pos_bound n 10 ltac:(lia)).
        pose proof (Z.div_pos n 10 ltac:(lia)). lia. }
      rewrite Hnm, Nat.pow_succ_r'. nia.
Qed.


Lemma percent_s_database (L : Z) (v : string) :
  (0 <= L)%Z -> percent_s ("%-" ++ str_Z L ++ "s ") v = Some (ljust v (Z.to_nat L) ++ " ").
Proof.
  intro HL. unfold percent_s.
  change ("%-" ++ ?X) with (String "%" (String "-" X)). cbn [split_percent take_flags].
  unfold str_Z. replace (Z.ltb L 0) with false by (symmetry; apply Z.ltb_ge; lia).
  rewrite digits_go_app. cbn [String.append].
  rewrite take_flags_digits_go by (reflexivity || lia).
  destruct (take_width_digits_go (S (Z.to_nat (Z.log2 (Z.abs L)))) (Z.abs L) "s " 0)
    as [d Hd].
  { split; [lia|]. apply str_Z_fuel. lia. }
  rewrite Hd. simpl. rewrite Z.abs_eq by lia. reflexivity.
Qed.

(** X9: when the database column is at least 16 characters wide, every
    column of a UI built by [UI.make] that has a [max_width] renders any value
    to exactly the width of its title, so header and rows stay aligned
    whatever the values. *)
Theorem make_render_aligned (flag max_db_length : Z) (qm : QueryMode) (ui : UI.UI)
    (qm' : QueryMode) (c : Column) (v : string)
    (H : UI.make flag max_db_length qm = UI.Done ui)
    (Hin : In c (UI.columns_by_querymode ui qm'))
    (Hw : max_width c <> None) (HL : (16 <= max_db_length)%Z) :
  exists s t, render c v = Some s /\ title_render c = Some t /\
              String.length s = String.length t.
Proof.
  destruct (make_columns_from_entries _ _ _ _ _ _ H Hin) as [e [He ->]].
  cbn [In UI.entries] in He. repeat destruct He as [<-|He]; try contradiction;
    cbn [snd UI.entry_column max_width UI.e_max_width] in Hw;
    try (exfalso; apply Hw; reflexivity);
    unfold render, title_render;
    cbn [snd UI.entry_column template_h col_name max_width UI.e_template UI.e_name UI.e_max_width];
    rewrite ?percent_s_database by lia; unfold py_slice_to, percent_s; simpl;
    (eexists; eexists; split; [reflexivity|]; split; [reflexivity|]);
    cbn [String.length];
    rewrite ?slen_app, ?rjust_len, ?ljust_len, ?substring0_len, ?ljust_go_len;
    cbn [String.length];
    try change (Pos.to_nat 16) with 16%nat; try change (Pos.to_nat 9) with 9%nat; lia.
Qed.

Lemma make_render_aligned_witness :
  UI.make 32767 16 QM_activities = UI.Done
    (UI.mkUI (UI.make_columns_for (map UI.entry_column
       (filter (fun e => UI.guard 32767 (UI.e_flag e)) (UI.entries 16))))
       32767 0 DM_query QDM_wrap_noindent SortKey_default QM_activities 2 false) /\
  In (mkColumn "appname" "APP" "%16s " false None (Some 16%Z))
    (UI.make_columns_for (map UI.entry_column
       (filter (fun e => UI.guard 32767 (UI.e_flag e)) (UI.entries 16))) QM_activities) /\
  Some 16%Z <> None /\ (16 <= 16)%Z /\
  exists s t, render (mkColumn "appname" "APP" "%16s " false None (Some 16%Z))
                "a_very_long_application_name" = Some s /\
              title_render (mkColumn "appname" "APP" "%16s " false None (Some 16%Z)) = Some t /\
              String.length s = String.length t.
Proof.
  assert (H : UI.make 32767 16 QM_activities = UI.Done
    (UI.mkUI (UI.make_columns_for (map UI.entry_column
       (filter (fun e => UI.guard 32767 (UI.e_flag e)) (UI.entries 16))))
       32767 0 DM_query QDM_wrap_noindent SortKey_default QM_activities 2 false))
    by (unfold UI.make; rewrite make_possible_columns; reflexivity).
  assert (Hin : In (mkColumn "appname" "APP" "%16s " false None (Some 16%Z))
    (UI.make_columns_for (map UI.entry_column
       (filter (fun e => UI.guard 32767 (UI.e_flag e)) (UI.entries 16))) QM_activities))
    by (vm_compute; tauto).
  assert (Hw : Some 16%Z <> None) by discriminate.
  assert (HL : (16 <= 16)%Z) by lia.
  split; [exact H|]. split; [exact Hin|]. split; [exact Hw|]. split; [exact HL|].
  exact (make_render_aligned 32767 16 QM_activities _ QM_activities _
           "a_very_long_application_name" H Hin Hw HL).
Defined.

(** ** handlers.query_mode *)

(** X10: [handlers.query_mode] selects a query mode by the number key of
    [KEYS_BY_QUERYMODE] or by its function-key code; a function-key code of
    one mode wins over the key's text, and the ["F1"]..["F3"] names are not
    keys of the map. *)
Theorem query_mode_keys (k : Keystroke) (qm : QueryMode) :
  Handlers.query_mode k = Some qm <->
  (let '(_, digit, code) := KEYS_BY_QUERYMODE qm in
   ks_code k = Some code \/
   (ks_str k = digit /\
    forall qm', ks_code k <> Some (snd (KEYS_BY_QUERYMODE qm')))).
Proof.
  destruct k as [s code]. unfold Handlers.query_mode, Handlers.querymode_from_code,
    Handlers.querymode_from_str. cbn [ks_code ks_str].
  assert (Hstr : forall q, (if String.eqb s "1" then Some QM_activities
                 else if String.eqb s "2" then Some QM_waiting
                 else if String.eqb s "3" then Some QM_blocking else None) = Some q <->
                 s = snd (fst (KEYS_BY_QUERYMODE q))).
  { intro q. destruct (String.eqb_spec s "1") as [->|N1];
      [destruct q; simpl; split; congruence|].
    destruct (String.eqb_spec s "2") as [->|N2]; [destruct q; simpl; split; congruence|].
    destruct (String.eqb_spec s "3") as [->|N3]; [destruct q; simpl; split; congruence|].
    destruct q; simpl; split; congruence. }
  destruct code as [c|].
  - destruct (Z.eqb_spec c Keys.KEY_F1) as [->|N1].
    + destruct qm; simpl; split; intro H; try discriminate H; try tauto;
          destruct H as [H|[_ H]]; try discriminate H; exfalso; apply (H QM_activities); reflexivity.
    + destruct (Z.eqb_spec c Keys.KEY_F2) as [->|N2].
      * destruct qm; simpl; split; intro H; try discriminate H; try tauto;
          destruct H as [H|[_ H]]; try discriminate H; exfalso; apply (H QM_waiting); reflexivity.
      * destruct (Z.eqb_spec c Keys.KEY_F3) as [->|N3].
        -- destruct qm; simpl; split; intro H; try discriminate H; try tauto;
          destruct H as [H|[_ H]]; try discriminate H; exfalso; apply (H QM_blocking); reflexivity.
        -- rewrite Hstr.
           assert (Hc : forall q, Some c <> Some (snd (KEYS_BY_QUERYMODE q)))
             by (intros q Hq; injection Hq as Hq; destruct q; simpl in Hq; contradiction).
           destruct qm; simpl; split.
           all: try (intros H; right; split; [exact H|exact Hc]).
           all: intros [H|[H _]]; [injection H as H; contradiction|exact H].
  - rewrite Hstr. destruct qm; simpl; split.
    all: try (intros H; right; split; [exact H|intros q Hq; discriminate]).
    all: intros [H|[H _]]; [discriminate|exact H].
Qed.

(** ** handlers.duration_mode and handlers.verbose_mode over key sequences *)

Lemma mod3_step (v c : Z) :
  (0 <= c)%Z -> (1 <= v <= 3)%Z ->
  (((v mod 3 + 1) - 1 + c) mod 3 + 1 = (v - 1 + (c + 1)) mod 3 + 1)%Z.
Proof.
  intros Hc Hv. f_equal.
  assert (v = 1 \/ v = 2 \/ v = 3)%Z as [-> | [-> | ->]] by lia.
  - rewrite (Z.mod_small 1 3) by lia. f_equal; lia.
  - rewrite (Z.mod_small 2 3) by lia. f_equal; lia.
  - rewrite Z_mod_same_full.
    replace (3 - 1 + (c + 1))%Z with (c + 1 * 3)%Z by lia. rewrite Z_mod_plus_full.
    f_equal; lia.
Qed.

(** X11: over any sequence of keystrokes, [duration_mode] and
    [verbose_mode] never fail and only count their own key: the mode reached
    is the starting one advanced, cyclically through the three values, once
    per ["T"] (duration mode) or ["v"] (display mode) keystroke. *)
Theorem mode_keys_cycle (ks : list Keystroke) (dm : DurationMode) (vm : QueryDisplayMode) :
  (exists dm', apply_mode_keys Handlers.duration_mode ks dm = Ok dm' /\
     value dm' = ((value dm - 1 + Z.of_nat (List.length
        (filter (fun k => Handlers.key_eqb k Keys.CHANGE_DURATION_MODE) ks))) mod 3 + 1)%Z) /\
  (exists vm', apply_mode_keys Handlers.verbose_mode ks vm = Ok vm' /\
     value vm' = ((value vm - 1 + Z.of_nat (List.length
        (filter (fun k => Handlers.key_eqb k Keys.CHANGE_DISPLAY_MODE) ks))) mod 3 + 1)%Z).
Proof.
  split.
  - revert dm. induction ks as [|k rest IH]; intro dm; cbn [apply_mode_keys filter].
    + exists dm. split; [reflexivity|]. destruct dm; reflexivity.
    + unfold Handlers.duration_mode.
      destruct (Handlers.key_eqb k Keys.CHANGE_DURATION_MODE).
      * assert (Hn : exists d, enum_next dm = Ok d /\ value d = (value dm mod 3 + 1)%Z)
          by (destruct dm; eexists; split; reflexivity).
        destruct Hn as [d [Hd Hv]]. rewrite Hd. cbn [bind].
        destruct (IH d) as [d' [H1 H2]]. exists d'. split; [exact H1|].
        rewrite H2, Hv. cbn [List.length]. rewrite Nat2Z.inj_succ, <- Z.add_1_r.
        apply mod3_step; [lia|destruct dm; simpl; lia].
      * cbn [bind]. apply IH.
  - revert vm. induction ks as [|k rest IH]; intro vm; cbn [apply_mode_keys filter].
    + exists vm. split; [reflexivity|]. destruct vm; reflexivity.
    + unfold Handlers.verbose_mode.
      destruct (Handlers.key_eqb k Keys.CHANGE_DISPLAY_MODE).
      * assert (Hn : exists d, enum_next vm = Ok d /\ value d = (value vm mod 3 + 1)%Z)
          by (destruct vm; eexists; split; reflexivity).
        destruct Hn as [d [Hd Hv]]. rewrite Hd. cbn [bind].
        destruct (IH d) as [d' [H1 H2]]. exists d'. split; [exact H1|].
        rewrite H2, Hv. cbn [List.length]. rewrite Nat2Z.inj_succ, <- Z.add_1_r.
        apply mod3_step; [lia|destruct vm; simpl; lia].
      * cbn [bind]. apply IH.
Qed.

(** ** views.limit *)

(** X12: one view under [limit]: with no counter every line is printed;
    with a counter at [n >= 1] the first [n] lines are printed, and with a
    counter already below 1 the view is printed in full, since
    [next(counter) == 1] never holds again. The counter goes down by one per
    printed line. *)
Theorem limit_exact (lines : list string) (n : Z) :
  Views.limit lines None = (lines, None) /\
  fst (Views.limit lines (Some n)) =
    (if Z.leb 1 n then firstn (Z.to_nat n) lines else lines) /\
  snd (Views.limit lines (Some n)) =
    Some (n - Z.of_nat (List.length (fst (Views.limit lines (Some n)))))%Z.
Proof.
  split.
  { induction lines as [|l rest IH]; simpl; [reflexivity|]. rewrite IH. reflexivity. }
  revert n. induction lines as [|l rest IH]; intro n; simpl.
  - destruct (Z.leb 1 n); rewrite ?firstn_nil; split; [reflexivity| |reflexivity|];
      f_equal; lia.
  - destruct (Z.eqb_spec n 1) as [->|Hn].
    + simpl. split; [reflexivity|]. reflexivity.
    + destruct (IH (n - 1)%Z) as [IH1 IH2].
      destruct (Views.limit rest (Some (n - 1)%Z)) as [out c] eqn:E. simpl in *.
      subst c. split.
      * rewrite IH1. destruct (Z.leb_spec 1 (n - 1)) as [H1|H1];
          destruct (Z.leb_spec 1 n) as [H2|H2]; try lia.
        -- replace (Z.to_nat n) with (S (Z.to_nat (n - 1))) by lia. reflexivity.
        -- reflexivity.
      * f_equal. lia.
Qed.

(** ** views._columns *)

(** X13: [_columns] right-justifies the left text and left-justifies the
    right text to the column width less one, around [" - "]; when both texts
    fit, the line is one character wider than [total_width] for an even
    width and two characters narrower for an odd one. *)
Theorem columns_width (left right : string) (w : Z) :
  let cw := (if Z.even w then w / 2 else w / 2 - 1)%Z in
  String.length (_columns left right w) =
    (Nat.max (Z.to_nat (cw - 1)) (String.length left) + 3
     + Nat.max (Z.to_nat (cw - 1)) (String.length right))%nat /\
  ((Z.of_nat (String.length left) <= cw - 1)%Z ->
   (Z.of_nat (String.length right) <= cw - 1)%Z ->
   Z.of_nat (String.length (_columns left right w)) = if Z.even w then (w + 1)%Z else (w - 2)%Z).
Proof.
  intro cw.
  assert (Hcw : (if Z.eqb (w mod 2) 0 then w / 2 else w / 2 - 1)%Z = cw).
  { unfold cw. rewrite Zeven_mod. destruct (Z.eqb (w mod 2) 0); reflexivity. }
  assert (Hlen : String.length (_columns left right w) =
    (Nat.max (Z.to_nat (cw - 1)) (String.length left) + 3
     + Nat.max (Z.to_nat (cw - 1)) (String.length right))%nat).
  { unfold _columns. rewrite Hcw. rewrite !slen_app, rjust_len, ljust_len.
    cbn [String.length]. lia. }
  split; [exact Hlen|]. intros Hl Hr. rewrite Hlen.
  pose proof (Z.div_mod w 2 ltac:(lia)) as Hdm. pose proof (Z.mod_pos_bound w 2 ltac:(lia)).
  unfold cw in *. rewrite Zeven_mod in *.
  destruct (Z.eqb_spec (w mod 2) 0) as [E|E]; lia.
Qed.

Lemma columns_width_witness :
  (Z.of_nat (String.length "12%") <= 4)%Z /\ (Z.of_nat (String.length "1/2") <= 4)%Z /\
  Z.of_nat (String.length (_columns "12%" "1/2" 10)) = 11%Z.
Proof.
  assert (H1 : (Z.of_nat (String.length "12%") <= (if Z.even 10 then 10 / 2 else 10 / 2 - 1) - 1)%Z)
    by (vm_compute; discriminate).
  assert (H2 : (Z.of_nat (String.length "1/2") <= (if Z.even 10 then 10 / 2 else 10 / 2 - 1) - 1)%Z)
    by (vm_compute; discriminate).
  split; [exact H1|]. split; [exact H2|].
  exact (proj2 (columns_width "12%" "1/2" 10) H1 H2).
Defined.

(** ** ui.main: one cycle of the loop *)

Lemma resolve_sort_key_shape (k : Keystroke) (qm : QueryMode) (is_local : bool) (sk : SortKey) :
  Handlers.resolve_sort_key k qm is_local sk = SK_duration \/
  (is_local = true /\ qm = QM_activities).
Proof.
  unfold Handlers.resolve_sort_key, Handlers.sort_key_for.
  destruct is_local, qm; simpl; auto.
Qed.

Lemma key_eq_some (key : option Keystroke) (s : string) :
  key_eq key s = true -> exists k, key = Some k /\ ks_str k = s.
Proof.
  destruct key as [k|]; simpl; [|discriminate].
  unfold Handlers.key_eqb. intro H. apply String.eqb_eq in H. exists k. split; auto.
Qed.

Lemma cycle_shape (is_local : bool) (st : UiState) (counts : Z * Z)
    (nk : option Keystroke) :
  exists in_pause in_help key qm sk rt,
    cycle is_local st counts nk =
      (if key_eq key Keys.EXIT then Ok None
       else Ok (Some (mkUi nk in_help in_pause qm sk rt
              (if negb in_help && negb in_pause && QueryMode_eqb qm QM_activities && is_local
               then update_max_iops 0 (fst counts) (snd counts) else 0%Z)))) /\
    (qm = ui_query_mode st /\ sk = ui_sort_key st /\
       (rt = ui_refresh_time st \/
        exists s, (s = "+" \/ s = "-") /\ Handlers.refresh_time (Some s) (ui_refresh_time st) = Ok rt)
     \/ exists k, ui_key st = Some k /\ rt = ui_refresh_time st /\
         qm = match Handlers.query_mode k with Some q => q | None => ui_query_mode st end /\
         sk = Handlers.resolve_sort_key k qm is_local (ui_sort_key st)).
Proof.
  unfold cycle. cbv zeta.
  destruct (key_eq (ui_key st) Keys.HELP) eqn:E1.
  { do 6 eexists. split; [reflexivity|]. left. auto. }
  destruct (ui_in_help st && key_eq (ui_key st) "q") eqn:E2.
  { do 6 eexists. split; [reflexivity|]. left. auto. }
  destruct (key_eq (ui_key st) Keys.PAUSE) eqn:E3.
  { do 6 eexists. split; [reflexivity|]. left. auto. }
  destruct (key_eq (ui_key st) Keys.REFRESH_TIME_INCREASE
            || key_eq (ui_key st) Keys.REFRESH_TIME_DECREASE) eqn:E4.
  { apply orb_true_iff in E4.
    assert (Hk : exists k, ui_key st = Some k /\ (ks_str k = "+" \/ ks_str k = "-")).
    { destruct E4 as [E4|E4]; apply key_eq_some in E4 as [k [Hk Hs]]; exists k; auto. }
    destruct Hk as [k [Hk Hs]]. rewrite Hk. cbn [option_map].
    assert (Hr : exists r, Handlers.refresh_time (Some (ks_str k)) (ui_refresh_time st) = Ok r).
    { destruct Hs as [-> | ->]; eexists; reflexivity. }
    destruct Hr as [r Hr]. rewrite Hr. cbn [bind].
    do 6 eexists. split; [reflexivity|]. left. split; [reflexivity|]. split; [reflexivity|].
    right. exists (ks_str k). split; [exact Hs|exact Hr]. }
  destruct (ui_key st) as [k|] eqn:Ek.
  - do 6 eexists. split; [reflexivity|]. right. exists k. auto.
  - do 6 eexists. split; [reflexivity|]. left. auto.
Qed.

(** X14: a cycle of the ui.main loop never raises: [refresh_time] is only
    called for the ["+"] and ["-"] keys, the only ones it accepts. A cycle
    that goes on keeps the refresh interval within [0.5, 5] when it was. *)
Theorem cycle_never_raises (is_local : bool) (st : UiState) (counts : Z * Z)
    (nk : option Keystroke) :
  exists o, cycle is_local st counts nk = Ok o /\
    forall st', o = Some st' ->
      1#2 <= ui_refresh_time st <= 5 -> 1#2 <= ui_refresh_time st' <= 5.
Proof.
  destruct (cycle_shape is_local st counts nk)
    as (in_pause & in_help & key & qm & sk & rt & Hc & Hcase).
  rewrite Hc. destruct (key_eq key Keys.EXIT).
  - eexists. split; [reflexivity|]. discriminate.
  - eexists. split; [reflexivity|]. intros st' Hs Hb. injection Hs as <-. cbn [ui_refresh_time].
    destruct Hcase as [[_ [_ [-> | [s [Hs Hr]]]]] | [k [_ [-> _]]]]; [exact Hb| |exact Hb].
    destruct (refresh_time_step_bounded s (ui_refresh_time st) Hs Hb) as [v [Hv Hvb]].
    rewrite Hr in Hv. injection Hv as ->. exact Hvb.
Qed.

Lemma cycle_never_raises_witness :
  cycle true (mkUi (Some (mkKey "+" None)) false false QM_activities SK_duration 4 0%Z)
    (0, 0)%Z None =
    Ok (Some (mkUi None false false QM_activities SK_duration 5 0%Z)) /\
  1#2 <= ui_refresh_time (mkUi None false false QM_activities SK_duration 5 0%Z) <= 5.
Proof.
  destruct (cycle_never_raises true
              (mkUi (Some (mkKey "+" None)) false false QM_activities SK_duration 4 0%Z)
              (0, 0)%Z None) as [o [Ho Hb]].
  assert (Hc : cycle true (mkUi (Some (mkKey "+" None)) false false QM_activities SK_duration 4 0%Z)
                 (0, 0)%Z None =
               Ok (Some (mkUi None false false QM_activities SK_duration 5 0%Z)))
    by reflexivity.
  rewrite Hc in Ho. injection Ho as <-.
  split; [exact Hc|].
  apply (Hb _ eq_refl). cbn [ui_refresh_time]. split; unfold Qle; simpl; lia.
Defined.

(** X15: a sort key other than [duration] is only ever in force in the
    running-queries mode of a local session: every cycle of ui.main keeps
    this, and the initial state has it. *)
Theorem cycle_sort_key_invariant (is_local : bool) (st st' : UiState) (counts : Z * Z)
    (nk : option Keystroke)
    (Hinv : ui_sort_key st = SK_duration \/
            (is_local = true /\ ui_query_mode st = QM_activities))
    (H : cycle is_local st counts nk = Ok (Some st')) :
  (ui_sort_key ui_init = SK_duration) /\
  (ui_sort_key st' = SK_duration \/ (is_local = true /\ ui_query_mode st' = QM_activities)).
Proof.
  split; [reflexivity|].
  destruct (cycle_shape is_local st counts nk)
    as (in_pause & in_help & key & qm & sk & rt & Hc & Hcase).
  rewrite Hc in H. destruct (key_eq key Keys.EXIT); [discriminate|].
  injection H as <-. cbn [ui_sort_key ui_query_mode].
  destruct Hcase as [[-> [-> _]] | [k [_ [_ [Hq ->]]]]]; [exact Hinv|].
  apply resolve_sort_key_shape.
Qed.

Lemma cycle_sort_key_invariant_witness :
  (ui_sort_key ui_init = SK_duration \/
   (true = true /\ ui_query_mode ui_init = QM_activities)) /\
  cycle true ui_init (0, 0)%Z (Some (mkKey "c" None)) =
    Ok (Some (mkUi (Some (mkKey "c" None)) false false QM_activities SK_duration 2 0%Z)) /\
  (ui_sort_key ui_init = SK_duration) /\
  (ui_sort_key (mkUi (Some (mkKey "c" None)) false false QM_activities SK_duration 2 0%Z)
     = SK_duration \/
   (true = true /\
    ui_query_mode (mkUi (Some (mkKey "c" None)) false false QM_activities SK_duration 2 0%Z)
      = QM_activities)).
Proof.
  assert (Hinv : ui_sort_key ui_init = SK_duration \/
                 (true = true /\ ui_query_mode ui_init = QM_activities)) by (left; reflexivity).
  assert (H : cycle true ui_init (0, 0)%Z (Some (mkKey "c" None)) =
    Ok (Some (mkUi (Some (mkKey "c" None)) false false QM_activities SK_duration 2 0%Z)))
    by reflexivity.
  split; [exact Hinv|]. split; [exact H|].
  exact (cycle_sort_key_invariant true ui_init _ (0, 0)%Z (Some (mkKey "c" None)) Hinv H).
Defined.

(** X16: a cycle whose key is a number key of [KEYS_BY_QUERYMODE] switches
    to the query mode that key selects (a function-key code of another mode
    wins), resets the sort key to [duration] unless the new mode is running
    queries of a local session, where the sort key is kept, and leaves the
    help and pause flags alone. *)
Theorem cycle_query_mode_key (is_local : bool) (st : UiState) (counts : Z * Z)
    (nk : option Keystroke) (k : Keystroke) (qm : QueryMode)
    (Hk : ui_key st = Some k)
    (Hdigit : ks_str k = "1" \/ ks_str k = "2" \/ ks_str k = "3")
    (Hqm : Handlers.query_mode k = Some qm) :
  exists st', cycle is_local st counts nk = Ok (Some st') /\
    ui_query_mode st' = qm /\
    ui_sort_key st' = (if is_local && QueryMode_eqb qm QM_activities then ui_sort_key st
                       else SK_duration) /\
    ui_in_help st' = ui_in_help st /\ ui_in_pause st' = ui_in_pause st.
Proof.
  unfold cycle. rewrite Hk. cbv zeta.
  destruct k as [s code]. cbn [ks_str] in Hdigit.
  destruct Hdigit as [-> | [-> | ->]]; cbn [key_eq Handlers.key_eqb ks_str String.eqb
      Ascii.eqb Bool.eqb andb orb]; rewrite andb_false_r; cbn [bind]; rewrite Hqm;
    eexists; (split; [reflexivity|]); cbn [ui_query_mode ui_sort_key ui_in_help ui_in_pause];
    (split; [reflexivity|]); (split; [|split; reflexivity]);
    unfold Handlers.resolve_sort_key, Handlers.sort_key_for;
    destruct is_local, qm; reflexivity.
Qed.

Lemma cycle_query_mode_key_witness :
  ui_key (mkUi (Some (mkKey "2" None)) false false QM_activities SK_cpu 2 0%Z) =
    Some (mkKey "2" None) /\
  (ks_str (mkKey "2" None) = "1" \/ ks_str (mkKey "2" None) = "2" \/
   ks_str (mkKey "2" None) = "3") /\
  Handlers.query_mode (mkKey "2" None) = Some QM_waiting /\
  exists st', cycle true (mkUi (Some (mkKey "2" None)) false false QM_activities SK_cpu 2 0%Z)
                (0, 0)%Z None = Ok (Some st') /\
    ui_query_mode st' = QM_waiting /\
    ui_sort_key st' = (if true && QueryMode_eqb QM_waiting QM_activities then SK_cpu
                       else SK_duration) /\
    ui_in_help st' = false /\ ui_in_pause st' = false.
Proof.
  assert (Hk : ui_key (mkUi (Some (mkKey "2" None)) false false QM_activities SK_cpu 2 0%Z) =
               Some (mkKey "2" None)) by reflexivity.
  assert (Hd : ks_str (mkKey "2" None) = "1" \/ ks_str (mkKey "2" None) = "2" \/
               ks_str (mkKey "2" None) = "3") by (right; left; reflexivity).
  assert (Hq : Handlers.query_mode (mkKey "2" None) = Some QM_waiting) by reflexivity.
  split; [exact Hk|]. split; [exact Hd|]. split; [exact Hq|].
  exact (cycle_query_mode_key true _ (0, 0)%Z None _ QM_waiting Hk Hd Hq).
Defined.

(** ** activities.update_processes_local: pids, rows and errors *)

Lemma existsb_Zeqb_false (x : Z) (l : list Z) :
  ~ In x l -> existsb (Z.eqb x) l = false.
Proof.
  intro Hn. destruct (existsb (Z.eqb x) l) eqn:E; [|reflexivity].
  apply existsb_exists in E as [y [Hy Hxy]]. apply Z.eqb_eq in Hxy. subst y. contradiction.
Qed.

Lemma step_pids_rows now gd processes st pid np st1 :
  step now gd processes st (pid, np) = Ok st1 ->
  pids st1 = (if existsb (Z.eqb pid) (pids st) then pids st else (pids st ++ [pid])%list) /\
  map ap_pid (procs st1) =
    (map ap_pid (procs st) ++
     (if psutil_calls_succeed (psutil_proc (extras (sample_used processes (pid, np))))
      then [pid] else []))%list.
Proof.
  unfold step, sample_used. cbn [fst snd].
  destruct (assoc_find pid processes) as [old|].
  - unfold update_existing.
    destruct (Qeq_bool (now (ticks st) - io_time (extras old)) 0); cbn [bind];
      [discriminate|].
    cbn [extras psutil_proc].
    destruct (psutil_proc (extras old)) as [h|]; cbn [psutil_calls_succeed];
      [destruct (ps_memory_percent h) as [m|];
       [destruct (ps_cpu_percent h) as [c|]|]|];
      intros H; injection H as <-; cbn [pids procs psutil_calls_succeed];
      rewrite ?map_app; split; try reflexivity; rewrite app_nil_r; reflexivity.
  - cbn [bind].
    destruct (psutil_proc (extras np)) as [h|]; cbn [psutil_calls_succeed];
      [destruct (ps_memory_percent h) as [m|];
       [destruct (ps_cpu_percent h) as [c|]|]|];
      intros H; injection H as <-; cbn [pids procs psutil_calls_succeed];
      rewrite ?map_app; split; try reflexivity; rewrite app_nil_r; reflexivity.
Qed.

Lemma loop_pids_rows now gd processes items :
  forall st st', loop now gd processes items st = Ok st' ->
  map ap_pid (procs st') =
    (map ap_pid (procs st) ++
     map fst (filter (fun it => psutil_calls_succeed (psutil_proc (extras (sample_used processes it))))
                items))%list /\
  (NoDup (map fst items) -> (forall x, In x (map fst items) -> ~ In x (pids st)) ->
   pids st' = (pids st ++ map fst items)%list).
Proof.
  induction items as [|[pid np] rest IH]; intros st st' H.
  - cbn [loop] in H. injection H as <-. cbn [filter map]. rewrite !app_nil_r. auto.
  - cbn [loop] in H. destruct (step now gd processes st (pid, np)) as [st1|e] eqn:Es;
      cbn [bind] in H; [|discriminate].
    destruct (step_pids_rows now gd processes st pid np st1 Es) as [Hp Hr].
    destruct (IH st1 st' H) as [Hr' Hp'].
    split.
    + rewrite Hr', Hr, <- app_assoc. cbn [filter].
      destruct (psutil_calls_succeed _); reflexivity.
    + intros Hnd Hfresh. cbn [map] in Hnd, Hfresh. inversion Hnd as [|? ? Hnin Hnd']; subst.
      rewrite existsb_Zeqb_false in Hp by (apply Hfresh; left; reflexivity).
      rewrite Hp' by (exact Hnd' ||
        (intros x Hx; rewrite Hp; rewrite in_app_iff; intros [Hx'|[<- | []]];
         [exact (Hfresh x (or_intror Hx) Hx') | contradiction])).
      rewrite Hp, <- app_assoc. reflexivity.
Qed.

Lemma step_raise now gd processes st pid np e :
  step now gd processes st (pid, np) = Raise e ->
  e = ZeroDivisionError.
Proof.
  unfold step. destruct (assoc_find pid processes) as [old|].
  - unfold update_existing.
    destruct (Qeq_bool (now (ticks st) - io_time (extras old)) 0); cbn [bind].
    + intro H. injection H as <-. reflexivity.
    + cbn [extras psutil_proc].
      destruct (psutil_proc (extras old)) as [h|];
        [destruct (ps_memory_percent h) as [m|];
         [destruct (ps_cpu_percent h) as [c|]|]|]; discriminate.
  - cbn [bind].
    destruct (psutil_proc (extras np)) as [h|];
      [destruct (ps_memory_percent h) as [m|];
       [destruct (ps_cpu_percent h) as [c|]|]|]; discriminate.
Qed.

Lemma loop_raise now gd processes items :
  forall st e, loop now gd processes items st = Raise e -> e = ZeroDivisionError.
Proof.
  induction items as [|[pid np] rest IH]; intros st e H; cbn [loop] in H; [discriminate|].
  destruct (step now gd processes st (pid, np)) as [st1|e1] eqn:Es; cbn [bind] in H.
  - exact (IH st1 e H).
  - injection H as <-. exact (step_raise _ _ _ _ _ _ _ Es).
Qed.

Lemma io_count_raise (d : Q) (fs : Z) (e : exn) :
  io_count d fs = Raise e -> e = ZeroDivisionError.
Proof.
  unfold io_count. destruct (Qlt_bool 0 d); [|discriminate].
  destruct (Z.eqb fs 0); [|discriminate]. intro H. injection H as <-. reflexivity.
Qed.

(** X17: on a successful run over a dict of new samples (distinct pids),
    the returned pid list is the pids of the new samples in iteration
    order, rows or no rows. *)
Theorem update_processes_local_pids (now : nat -> Q) (gd : Q -> Q)
    (processes np : list (Z * Process)) (fs : Z)
    (io : Q * Q * Z * Z) (ps : list Z) (rows : list ActivityProcess)
    (nm : list (Z * Process))
    (Hnd : NoDup (map fst np))
    (H : update_processes_local now gd processes np fs = Ok (io, ps, rows, nm)) :
  ps = map fst np.
Proof.
  unfold update_processes_local in H.
  destruct (loop now gd processes np (mkLoop 0 0 [] [] np 0)) as [st|e] eqn:L;
    cbn [bind] in H; [|discriminate].
  destruct (io_count (read_bytes_delta st) fs) as [r1|e]; cbn [bind] in H; [|discriminate].
  destruct (io_count (write_bytes_delta st) fs) as [w1|e]; cbn [bind] in H; [|discriminate].
  injection H as _ Hps _ _. subst ps.
  destruct (loop_pids_rows now gd processes np _ st L) as [_ Hp].
  exact (Hp Hnd (fun x _ Hx => Hx)).
Qed.

(** X18: on a successful run, there is one row per new sample whose psutil
    calls both return (or that has no psutil handle), the handle being the
    previous sample's when the pid had one; the rows come in iteration
    order, and a sample whose psutil call raised gets no row. *)
Theorem update_processes_local_rows (now : nat -> Q) (gd : Q -> Q)
    (processes np : list (Z * Process)) (fs : Z)
    (io : Q * Q * Z * Z) (ps : list Z) (rows : list ActivityProcess)
    (nm : list (Z * Process))
    (H : update_processes_local now gd processes np fs = Ok (io, ps, rows, nm)) :
  map ap_pid rows =
    map fst (filter (fun it => psutil_calls_succeed (psutil_proc (extras (sample_used processes it))))
               np).
Proof.
  unfold update_processes_local in H.
  destruct (loop now gd processes np (mkLoop 0 0 [] [] np 0)) as [st|e] eqn:L;
    cbn [bind] in H; [|discriminate].
  destruct (io_count (read_bytes_delta st) fs) as [r1|e]; cbn [bind] in H; [|discriminate].
  destruct (io_count (write_bytes_delta st) fs) as [w1|e]; cbn [bind] in H; [|discriminate].
  injection H as _ _ Hrows _. subst rows.
  destruct (loop_pids_rows now gd processes np _ st L) as [Hr _].
  exact Hr.
Qed.

(** X19: update_processes_local raises nothing but [ZeroDivisionError]:
    the psutil exceptions are caught, and the divisions by the elapsed time
    and by the block size are the only ones that can fail. *)
Theorem update_processes_local_raises_zero_division (now : nat -> Q) (gd : Q -> Q)
    (processes np : list (Z * Process)) (fs : Z) (e : exn)
    (H : update_processes_local now gd processes np fs = Raise e) :
  e = ZeroDivisionError.
Proof.
  unfold update_processes_local in H.
  destruct (loop now gd processes np (mkLoop 0 0 [] [] np 0)) as [st|e1] eqn:L;
    cbn [bind] in H.
  - destruct (io_count (read_bytes_delta st) fs) as [r1|e1] eqn:R; cbn [bind] in H.
    + destruct (io_count (write_bytes_delta st) fs) as [w1|e1] eqn:W; cbn [bind] in H;
        [discriminate|].
      injection H as <-. exact (io_count_raise _ _ _ W).
    + injection H as <-. exact (io_count_raise _ _ _ R).
  - injection H as <-. exact (loop_raise _ _ _ _ _ _ L).
Qed.

Lemma update_processes_local_pids_witness :
  exists io ps rows nm,
    NoDup (map fst [(42%Z, sample_proc 2000 500 0); (7%Z, lost_proc)]) /\
    update_processes_local (fun _ => 11) (fun d => d) [(42%Z, sample_proc 1000 500 10)]
      [(42%Z, sample_proc 2000 500 0); (7%Z, lost_proc)] 4096 = Ok (io, ps, rows, nm) /\
    ps = [42%Z; 7%Z].
Proof.
  assert (Hnd : NoDup (map fst [(42%Z, sample_proc 2000 500 0); (7%Z, lost_proc)])).
  { cbn. constructor; [intros [H|[]]; discriminate|]. constructor; [intros []|constructor]. }
  assert (Hex : exists r, update_processes_local (fun _ => 11) (fun d => d)
                  [(42%Z, sample_proc 1000 500 10)]
                  [(42%Z, sample_proc 2000 500 0); (7%Z, lost_proc)] 4096 = Ok r)
    by (eexists; reflexivity).
  destruct Hex as [[[[io ps] rows] nm] H]. exists io, ps, rows, nm.
  split; [exact Hnd|]. split; [exact H|].
  exact (update_processes_local_pids _ _ _ _ _ io ps rows nm Hnd H).
Defined.

Lemma update_processes_local_rows_witness :
  exists io ps rows nm,
    update_processes_local (fun _ => 11) (fun d => d) [(42%Z, sample_proc 1000 500 10)]
      [(42%Z, sample_proc 2000 500 0); (7%Z, lost_proc)] 4096 = Ok (io, ps, rows, nm) /\
    map ap_pid rows = [42%Z].
Proof.
  assert (Hex : exists r, update_processes_local (fun _ => 11) (fun d => d)
                  [(42%Z, sample_proc 1000 500 10)]
                  [(42%Z, sample_proc 2000 500 0); (7%Z, lost_proc)] 4096 = Ok r)
    by (eexists; reflexivity).
  destruct Hex as [[[[io ps] rows] nm] H]. exists io, ps, rows, nm.
  split; [exact H|].
  exact (update_processes_local_rows _ _ _ _ _ io ps rows nm H).
Defined.

Lemma update_processes_local_raises_zero_division_witness :
  update_processes_local (fun _ => 10) (fun d => d) [(42%Z, sample_proc 1000 500 10)]
    [(42%Z, sample_proc 2000 500 0)] 4096 = Raise ZeroDivisionError /\
  ZeroDivisionError = ZeroDivisionError.
Proof.
  assert (H : update_processes_local (fun _ => 10) (fun d => d) [(42%Z, sample_proc 1000 500 10)]
                [(42%Z, sample_proc 2000 500 0)] 4096 = Raise ZeroDivisionError)
    by (vm_compute; reflexivity).
  split; [exact H|].
  exact (update_processes_local_raises_zero_division _ _ _ _ _ _ H).
Defined.

Lemma loop_prefix now gd processes pre rest :
  forall st,
  loop now gd processes (pre ++ rest) st = Raise ZeroDivisionError \/
  exists st1, ticks st1 = (ticks st + prior_count processes pre)%nat /\
    loop now gd processes (pre ++ rest) st = loop now gd processes rest st1.
Proof.
  induction pre as [|[pid np] pre IH]; intro st.
  - right. exists st. split; [cbn; lia|reflexivity].
  - cbn [app loop]. destruct (step now gd processes st (pid, np)) as [st1|e] eqn:Es;
      cbn [bind].
    + destruct (IH st1) as [Hr | [st2 [Ht Hl]]]; [left; exact Hr|].
      right. exists st2. split; [|exact Hl].
      pose proof (ActivitiesProofs.step_spec now gd processes st pid np st1 Es) as S.
      rewrite Ht. unfold prior_count. cbn [filter fst].
      destruct (assoc_find pid processes); destruct S as [Hs _]; rewrite Hs;
        cbn [List.length]; fold (prior_count processes pre); lia.
    + left. rewrite (step_raise _ _ _ _ _ _ _ Es). reflexivity.
Qed.

(** X20: when [time.time()], at the call made for a pid that has a
    previous sample, returns that sample's timestamp, the rate division
    fails and update_processes_local raises [ZeroDivisionError], whatever
    the other calls return; that call is the one after the calls made for
    the earlier pids with a previous sample. *)
Theorem update_processes_local_same_time (now : nat -> Q) (gd : Q -> Q)
    (processes pre post : list (Z * Process)) (fs : Z) (pid : Z) (p old : Process)
    (Hold : assoc_find pid processes = Some old)
    (Ht : io_time (extras old) == now (prior_count processes pre)) :
  update_processes_local now gd processes (pre ++ (pid, p) :: post) fs = Raise ZeroDivisionError.
Proof.
  unfold update_processes_local.
  set (st0 := mkLoop 0 0 [] [] (pre ++ (pid, p) :: post) 0).
  destruct (loop_prefix now gd processes pre ((pid, p) :: post) st0) as [Hr | [st1 [Ht1 Hl]]].
  - rewrite Hr. reflexivity.
  - rewrite Hl. cbn [loop step]. rewrite Hold. unfold update_existing.
    replace (Qeq_bool (now (ticks st1) - io_time (extras old)) 0) with true.
    + reflexivity.
    + symmetry. apply Qeq_bool_iff. rewrite Ht1. subst st0. cbn [ticks Nat.add].
      rewrite Ht. unfold Qminus. apply Qplus_opp_r.
Qed.

Lemma update_processes_local_same_time_witness :
  Activities.assoc_find 42 [(41%Z, sample_proc 0 0 5); (42%Z, sample_proc 1000 500 10)] =
    Some (sample_proc 1000 500 10) /\
  io_time (extras (sample_proc 1000 500 10)) ==
    (fun k : nat => match k with O => 6 | _ => 10 end)
      (prior_count [(41%Z, sample_proc 0 0 5); (42%Z, sample_proc 1000 500 10)]
         [(41%Z, sample_proc 100 0 0)]) /\
  update_processes_local (fun k : nat => match k with O => 6 | _ => 10 end) (fun d => d)
    [(41%Z, sample_proc 0 0 5); (42%Z, sample_proc 1000 500 10)]
    ([(41%Z, sample_proc 100 0 0)] ++ (42%Z, sample_proc 2000 500 0) :: []) 4096 =
    Raise ZeroDivisionError.
Proof.
  assert (Hold : Activities.assoc_find 42
                   [(41%Z, sample_proc 0 0 5); (42%Z, sample_proc 1000 500 10)] =
                 Some (sample_proc 1000 500 10)) by reflexivity.
  assert (Ht : io_time (extras (sample_proc 1000 500 10)) ==
               (fun k : nat => match k with O => 6 | _ => 10 end)
                 (prior_count [(41%Z, sample_proc 0 0 5); (42%Z, sample_proc 1000 500 10)]
                    [(41%Z, sample_proc 100 0 0)])) by reflexivity.
  split; [exact Hold|]. split; [exact Ht|].
  exact (update_processes_local_same_time _ (fun d => d) _ [(41%Z, sample_proc 100 0 0)] []
           4096 42 (sample_proc 2000 500 0) _ Hold Ht).
Defined.
